(** * Index-remapping dataset views of [imbalanced/datasets/generic.py]

    A shallow embedding of the three classes of the module
    ([DatasetWrapper], [PartitionedDataset], [ResampledDataset]) together
    with the fragments of Python and NumPy semantics their methods rely on:
    exceptions, sequence indexing with negative wrap-around, the numeric
    tower [int]/[float] (binary64, through [SpecFloat]), [min], [sum],
    [round], [int], and NumPy's [flatten], [min], [max], [arange],
    [cumsum]. *)

From Stdlib Require Import ZArith List String Bool Lia.
From Stdlib Require Import SpecFloat.
Import ListNotations.
Open Scope Z_scope.

(** ** Python: exceptions and the error monad *)

Module Py.

Inductive exn : Type :=
| AssertionError
| IndexError
| ValueError
| OverflowError
| KeyError
| TypeError
| AttributeError.

Inductive result (A : Type) : Type :=
| Ok (a : A)
| Raise (e : exn).

Arguments Ok {A} a.
Arguments Raise {A} e.

Definition bind {A B : Type} (m : result A) (k : A -> result B) : result B :=
  match m with
  | Ok a => k a
  | Raise e => Raise e
  end.

(** [assert cond] *)
Definition py_assert (cond : bool) : result unit :=
  if cond then Ok tt else Raise AssertionError.

(** A statement-level [for x in xs: body(x)] whose body may raise. *)
Fixpoint for_each {A : Type} (body : A -> result unit) (xs : list A) : result unit :=
  match xs with
  | [] => Ok tt
  | x :: xs' => bind (body x) (fun _ => for_each body xs')
  end.

(** A list comprehension [[f(x) for x in xs]] whose element expression may
    raise. *)
Fixpoint comprehension {A B : Type} (f : A -> result B) (xs : list A) : result (list B) :=
  match xs with
  | [] => Ok []
  | x :: xs' =>
      bind (f x) (fun y => bind (comprehension f xs') (fun ys => Ok (y :: ys)))
  end.

(** Calling a mutating method on an object: when the method raises, the
    object is left as it was (none of the methods below assigns an attribute
    before the statement that raises). *)
Definition call {S : Type} (method : S -> result S) (self : S) : S * option exn :=
  match method self with
  | Ok self' => (self', None)
  | Raise e => (self, Some e)
  end.

(** [seq[i]] for a Python list (and for a one-dimensional NumPy array):
    a negative index counts from the end, anything outside
    [-len, len) raises [IndexError]. *)
Definition py_getitem {A : Type} (seq : list A) (i : Z) : result A :=
  let n := Z.of_nat (List.length seq) in
  let j := if i <? 0 then i + n else i in
  if (0 <=? j) && (j <? n) then
    match nth_error seq (Z.to_nat j) with
    | Some x => Ok x
    | None => Raise IndexError
    end
  else Raise IndexError.



(** [x in seq] and [seq.index(x)] on a list of strings. *)
Fixpoint py_contains (seq : list string) (x : string) : bool :=
  match seq with
  | [] => false
  | y :: seq' => if String.eqb y x then true else py_contains seq' x
  end.

Fixpoint py_index (seq : list string) (x : string) : result Z :=
  match seq with
  | [] => Raise ValueError
  | y :: seq' =>
      if String.eqb y x then Ok 0
      else bind (py_index seq' x) (fun i => Ok (i + 1))
  end.

(** *** Dictionaries

    A [dict] keeps its keys in insertion order; the keys are pairwise
    distinct (stated as [NoDup] where a result depends on it). *)
Definition dict (V : Type) : Type := list (string * V).

Definition dict_keys {V : Type} (d : dict V) : list string := map fst d.
Definition dict_values {V : Type} (d : dict V) : list V := map snd d.

Fixpoint dict_getitem {V : Type} (d : dict V) (k : string) : result V :=
  match d with
  | [] => Raise KeyError
  | (k', v) :: d' => if String.eqb k' k then Ok v else dict_getitem d' k
  end.

(** [{name: f(v) for name, v in d.items()}] *)
Fixpoint dict_comprehension {V W : Type} (f : V -> result W) (d : dict V) : result (dict W) :=
  match d with
  | [] => Ok []
  | (k, v) :: d' =>
      bind (f v) (fun w => bind (dict_comprehension f d') (fun d'' => Ok ((k, w) :: d'')))
  end.

End Py.

Export Py.

Notation "x <- m ;; k" := (Py.bind m (fun x => k))
  (at level 61, m at next level, right associativity).
Notation "m ;;; k" := (Py.bind m (fun _ => k))
  (at level 61, right associativity).

(** ** Python numbers: [int] and [float]

    A [float] is an IEEE 754 binary64 value, taken from [SpecFloat] with
    [prec = 53] and [emax = 1024]; an [int] is unbounded. *)

Module Num.

Definition prec : Z := 53.
Definition emax : Z := 1024.

Inductive number : Type :=
| PyInt (z : Z)
| PyFloat (f : spec_float).

(** The conversion of an [int] operand of a mixed operation: rounded to the
    nearest binary64 value, ties to even; [OverflowError] when out of
    range. *)
Definition float_of_int (z : Z) : result spec_float :=
  match binary_normalize prec emax z 0 false with
  | S754_infinity _ => Raise OverflowError
  | f => Ok f
  end.

(** [x + y] *)
Definition py_add (x y : number) : result number :=
  match x, y with
  | PyInt a, PyInt b => Ok (PyInt (a + b))
  | PyInt a, PyFloat g => f <- float_of_int a ;; Ok (PyFloat (SFadd prec emax f g))
  | PyFloat f, PyInt b => g <- float_of_int b ;; Ok (PyFloat (SFadd prec emax f g))
  | PyFloat f, PyFloat g => Ok (PyFloat (SFadd prec emax f g))
  end.

(** [x * y] *)
Definition py_mul (x y : number) : result number :=
  match x, y with
  | PyInt a, PyInt b => Ok (PyInt (a * b))
  | PyInt a, PyFloat g => f <- float_of_int a ;; Ok (PyFloat (SFmul prec emax f g))
  | PyFloat f, PyInt b => g <- float_of_int b ;; Ok (PyFloat (SFmul prec emax f g))
  | PyFloat f, PyFloat g => Ok (PyFloat (SFmul prec emax f g))
  end.

(** Comparison of an [int] with a [float] is exact in Python: the integer is
    not rounded to a float first.  [None] is the unordered case (NaN). *)
Definition compare_int_float (a : Z) (f : spec_float) : option comparison :=
  match f with
  | S754_nan => None
  | S754_infinity s => Some (if s then Gt else Lt)
  | S754_zero _ => Some (a ?= 0)
  | S754_finite s m e =>
      let v := cond_Zopp s (Zpos m) in
      Some (if 0 <=? e then a ?= v * 2 ^ e else a * 2 ^ (- e) ?= v)
  end.

Definition py_compare (x y : number) : option comparison :=
  match x, y with
  | PyInt a, PyInt b => Some (a ?= b)
  | PyInt a, PyFloat g => compare_int_float a g
  | PyFloat f, PyInt b => option_map CompOpp (compare_int_float b f)
  | PyFloat f, PyFloat g => SFcompare f g
  end.

(** [x < y], [x <= y], [x > y], [x == y]; all false on NaN. *)
Definition py_lt (x y : number) : bool :=
  match py_compare x y with Some Lt => true | _ => false end.
Definition py_le (x y : number) : bool :=
  match py_compare x y with Some (Lt | Eq) => true | _ => false end.
Definition py_gt (x y : number) : bool :=
  match py_compare x y with Some Gt => true | _ => false end.
Definition py_eq (x y : number) : bool :=
  match py_compare x y with Some Eq => true | _ => false end.

(** [min(xs)]: the first item is the candidate, a later item replaces it
    when [item < candidate]. *)
Definition py_min (xs : list number) : result number :=
  match xs with
  | [] => Raise ValueError
  | x :: xs' => Ok (fold_left (fun cur y => if py_lt y cur then y else cur) xs' x)
  end.

(** [sum(xs)]: plain additions from left to right, starting from the
    integer 0. *)
Fixpoint sum_from (acc : number) (xs : list number) : result number :=
  match xs with
  | [] => Ok acc
  | x :: xs' => acc' <- py_add acc x ;; sum_from acc' xs'
  end.

Definition py_sum (xs : list number) : result number := sum_from (PyInt 0) xs.

(** [int(x)]: truncation towards zero. *)
Definition py_int (x : number) : result Z :=
  match x with
  | PyInt a => Ok a
  | PyFloat S754_nan => Raise ValueError
  | PyFloat (S754_infinity _) => Raise OverflowError
  | PyFloat (S754_zero _) => Ok 0
  | PyFloat (S754_finite s m e) =>
      Ok (cond_Zopp s (if 0 <=? e then Zpos m * 2 ^ e else Zpos m / 2 ^ (- e)))
  end.

(** [round(x)] with one argument: the nearest integer, ties to even. *)
Definition round_half_even (m : Z) (k : Z) : Z :=
  let q := m / 2 ^ k in
  let r := m mod 2 ^ k in
  match 2 * r ?= 2 ^ k with
  | Lt => q
  | Gt => q + 1
  | Eq => if Z.even q then q else q + 1
  end.

Definition py_round (x : number) : result Z :=
  match x with
  | PyInt a => Ok a
  | PyFloat S754_nan => Raise ValueError
  | PyFloat (S754_infinity _) => Raise OverflowError
  | PyFloat (S754_zero _) => Ok 0
  | PyFloat (S754_finite s m e) =>
      Ok (cond_Zopp s (if 0 <=? e then Zpos m * 2 ^ e else round_half_even (Zpos m) (- e)))
  end.

(** Classes of numbers: the finite ones (not NaN, not infinite), and
    among them those whose value is an integer: a float [m * 2^e] is one
    when [e >= 0] or [2^-e] divides [m]. *)
Definition finite_number (x : number) : bool :=
  match x with
  | PyInt _ | PyFloat (S754_zero _) | PyFloat (S754_finite _ _ _) => true
  | _ => false
  end.

Definition integral (x : number) : bool :=
  match x with
  | PyInt _ | PyFloat (S754_zero _) => true
  | PyFloat (S754_finite _ m e) => (0 <=? e) || (Zpos m mod 2 ^ (- e) =? 0)
  | _ => false
  end.

Definition is_int (x : number) : bool :=
  match x with
  | PyInt _ => true
  | PyFloat _ => false
  end.

(** The exact sum of the [int] items of a list. *)
Definition int_sum (xs : list number) : Z :=
  fold_right (fun x acc => match x with PyInt z => z + acc | PyFloat _ => acc end) 0 xs.

(** The float literals of the module and of the examples, as the nearest
    binary64 values. *)
Definition f0_64 : number := PyFloat (S754_finite false 5764607523034235 (-53)).
Definition f0_16 : number := PyFloat (S754_finite false 5764607523034235 (-55)).
Definition f0_2 : number := PyFloat (S754_finite false 7205759403792794 (-55)).
Definition f0_7 : number := PyFloat (S754_finite false 6305039478318694 (-53)).
Definition f0_3 : number := PyFloat (S754_finite false 5404319552844595 (-54)).

End Num.

Export Num.

(** ** NumPy: integer arrays

    The entries are taken as mathematical integers: the wrap-around of
    NumPy's 64-bit integers is not modelled. *)

Module Np.

#[local] Set Warnings "-register-all".

(** An [ndarray] of integers of any shape, as nested rows; [Elem] is a
    zero-dimensional array. *)
Inductive ndarray : Type :=
| Elem (z : Z)
| Axis (rows : list ndarray).

(** [a.flatten()]: the elements in row-major order, as a one-dimensional
    array. *)
Fixpoint flatten (a : ndarray) : list Z :=
  match a with
  | Elem z => [z]
  | Axis rows => flat_map flatten rows
  end.

(** A one-dimensional array as an [ndarray] value. *)
Definition array (xs : list Z) : ndarray := Axis (map Elem xs).



(** [a.min()] and [a.max()]: a reduction without identity, [ValueError] on
    an array of size zero. *)
Definition np_min (a : list Z) : result Z :=
  match a with
  | [] => Raise ValueError
  | x :: a' => Ok (fold_left Z.min a' x)
  end.

Definition np_max (a : list Z) : result Z :=
  match a with
  | [] => Raise ValueError
  | x :: a' => Ok (fold_left Z.max a' x)
  end.

(** [np.arange(n)] *)
Definition arange (n : Z) : list Z := map Z.of_nat (seq 0 (Z.to_nat n)).

(** [np.cumsum(xs)] *)
Fixpoint cumsum_from (acc : Z) (xs : list Z) : list Z :=
  match xs with
  | [] => []
  | x :: xs' => (acc + x) :: cumsum_from (acc + x) xs'
  end.

Definition cumsum (xs : list Z) : list Z := cumsum_from 0 xs.

End Np.

Export Np.

(** ** The classes of the module *)

Section Model.

(** A row [(input, target)] of a dataset is opaque here. *)
Context {Row : Type}.

(** A [torch.utils.data.Dataset]: [__len__] and [__getitem__]. *)
Record Dataset : Type := {
  ds_len : Z;
  ds_getitem : Z -> result Row
}.

(** The values that reach the dynamically checked parameters of the
    constructors and setters ([isinstance] is a test on the constructor). *)
Inductive object : Type :=
| PyNone
| PyBool (b : bool)
| PyNumber (n : number)
| PyStr (s : string)
| PyDict (d : dict number)
| PyNdarray (a : ndarray)
| PyDataset (d : Dataset).

(** [len(obj)] *)
Definition py_len (obj : object) : result Z :=
  match obj with
  | PyDataset d => Ok (ds_len d)
  | PyDict d => Ok (Z.of_nat (List.length d))
  | PyStr s => Ok (Z.of_nat (String.length s))
  | PyNdarray (Axis rows) => Ok (Z.of_nat (List.length rows))
  | _ => Raise TypeError
  end.

(** *** [DatasetWrapper] *)

(** [_lock_dataset] is [None] until [__init__] has assigned it. *)
Record DatasetWrapper : Type := {
  _dataset : option Dataset;
  _lock_dataset : option bool
}.

(** The [dataset] property. *)
Definition DatasetWrapper_dataset (self : DatasetWrapper) : option Dataset :=
  _dataset self.

(** The [dataset] setter. *)
Definition DatasetWrapper_set_dataset (dataset : object) (self : DatasetWrapper)
  : result DatasetWrapper :=
  match _dataset self with
  | Some _ =>
      match _lock_dataset self with
      | Some lock => py_assert (negb lock)
      | None => Raise AttributeError
      end
  | None => Ok tt
  end ;;;
  match dataset with
  | PyDataset d => Ok {| _dataset := Some d; _lock_dataset := _lock_dataset self |}
  | _ => Raise AssertionError
  end.

(** [DatasetWrapper.__init__(self, dataset, lock_dataset=True)] *)
Definition DatasetWrapper_init (dataset : object) (lock_dataset : object)
  : result DatasetWrapper :=
  let self := {| _dataset := None; _lock_dataset := None |} in
  self <- DatasetWrapper_set_dataset dataset self ;;
  let self := {| _dataset := _dataset self; _lock_dataset := Some true |} in
  Ok match lock_dataset with
     | PyBool b => {| _dataset := _dataset self; _lock_dataset := Some b |}
     | _ => self
     end.

(** [self.dataset] where the code goes on to use the wrapped dataset:
    [None] supports neither [len] nor indexing. *)
Definition wrapped (self : DatasetWrapper) : result Dataset :=
  match DatasetWrapper_dataset self with
  | Some d => Ok d
  | None => Raise TypeError
  end.

(** *** [PartitionedDataset] *)

Record PartitionedDataset : Type := {
  pd_super : DatasetWrapper;
  _partition_names : list string;
  _partition_sizes : list Z;
  _partition_offsets : list Z;
  _active_partition_idx : option Z
}.

Definition default_partitions : dict number :=
  [("train"%string, f0_64); ("val"%string, f0_16); ("test"%string, f0_2)].

(** [set_active_partition(self, partition)] *)
Definition set_active_partition (partition : string) (self : PartitionedDataset)
  : result PartitionedDataset :=
  py_assert (py_contains (_partition_names self) partition) ;;;
  idx <- py_index (_partition_names self) partition ;;
  Ok {| pd_super := pd_super self;
        _partition_names := _partition_names self;
        _partition_sizes := _partition_sizes self;
        _partition_offsets := _partition_offsets self;
        _active_partition_idx := Some idx |}.

(** The integrality check of the loop "Further validation". *)
Definition assert_integer_size (size : number) : result unit :=
  i <- py_int size ;;
  py_assert (py_eq size (PyInt i)).

(** The block "Convert fractional partitions to integer sizes": when the
    values sum to at most 1, every value becomes
    [round(fraction * len(dataset))]. *)
Definition convert_fractional (dataset : object) (partitions : dict number)
  : result (dict number) :=
  total <- py_sum (dict_values partitions) ;;
  if py_le total (PyInt 1) then
    dict_comprehension
      (fun fraction =>
         n <- py_len dataset ;;
         product <- py_mul fraction (PyInt n) ;;
         size <- py_round product ;;
         Ok (PyInt size))
      partitions
  else Ok partitions.

(** [PartitionedDataset.__init__(self, dataset, partitions=None)] *)
Definition PartitionedDataset_init (dataset : object) (partitions : object)
  : result PartitionedDataset :=
  super <- DatasetWrapper_init dataset (PyBool true) ;;
  let partitions :=
    match partitions with
    | PyNone => PyDict default_partitions
    | _ => partitions
    end in
  partitions <- match partitions with
                | PyDict d => Ok d
                | _ => Raise AssertionError
                end ;;
  py_assert (2 <=? Z.of_nat (List.length partitions)) ;;;
  smallest <- py_min (dict_values partitions) ;;
  py_assert (py_gt smallest (PyInt 0)) ;;;
  partitions <- convert_fractional dataset partitions ;;
  for_each assert_integer_size (dict_values partitions) ;;;
  total <- py_sum (dict_values partitions) ;;
  n <- py_len dataset ;;
  py_assert (py_eq total (PyInt n)) ;;;
  let names := dict_keys partitions in
  sizes <- comprehension
             (fun name => size <- dict_getitem partitions name ;; py_int size)
             names ;;
  let self := {| pd_super := super;
                 _partition_names := names;
                 _partition_sizes := sizes;
                 _partition_offsets := cumsum sizes;
                 _active_partition_idx := None |} in
  if py_contains names "train"%string then
    set_active_partition "train"%string self
  else
    first <- py_getitem names 0 ;;
    set_active_partition first self.

(** The [active_partition] property. *)
Definition active_partition (self : PartitionedDataset) : result string :=
  match _active_partition_idx self with
  | Some idx => py_getitem (_partition_names self) idx
  | None => Raise TypeError
  end.

(** The [partitions] property: the sizes by name, in order. *)
Definition PartitionedDataset_partitions (self : PartitionedDataset)
  : result (dict Z) :=
  comprehension
    (fun '(i, name) =>
       size <- py_getitem (_partition_sizes self) (Z.of_nat i) ;;
       Ok (name, size))
    (combine (seq 0 (List.length (_partition_names self))) (_partition_names self)).

(** The shortcut properties [train], [val], [test]. *)
Definition PartitionedDataset_train := set_active_partition "train"%string.
Definition PartitionedDataset_val := set_active_partition "val"%string.
Definition PartitionedDataset_test := set_active_partition "test"%string.

(** [PartitionedDataset.__getitem__(self, idx)] *)
Definition PartitionedDataset_getitem (self : PartitionedDataset) (idx : Z)
  : result Row :=
  active <- match _active_partition_idx self with
            | Some a => Ok a
            | None => Raise TypeError
            end ;;
  size <- py_getitem (_partition_sizes self) active ;;
  if idx >=? size then Raise IndexError
  else
    offset <- py_getitem (_partition_offsets self) (active - 1) ;;
    dataset <- wrapped (pd_super self) ;;
    ds_getitem dataset (offset + idx).

(** [PartitionedDataset.__len__(self)] *)
Definition PartitionedDataset_len (self : PartitionedDataset) : result Z :=
  active <- match _active_partition_idx self with
            | Some a => Ok a
            | None => Raise TypeError
            end ;;
  py_getitem (_partition_sizes self) active.

(** *** [ResampledDataset] *)

Record ResampledDataset : Type := {
  rd_super : DatasetWrapper;
  _samples : option (list Z)
}.

(** The [samples] setter. *)
Definition ResampledDataset_set_samples (samples : object) (self : ResampledDataset)
  : result ResampledDataset :=
  samples <- match samples with
             | PyNdarray a => Ok a
             | _ => Raise AssertionError
             end ;;
  let samples := flatten samples in
  lowest <- np_min samples ;;
  py_assert (lowest >=? 0) ;;;
  highest <- np_max samples ;;
  dataset <- wrapped (rd_super self) ;;
  py_assert (highest <? ds_len dataset) ;;;
  Ok {| rd_super := rd_super self; _samples := Some samples |}.

(** [ResampledDataset.__init__(self, dataset, samples=None)] *)
Definition ResampledDataset_init (dataset : object) (samples : object)
  : result ResampledDataset :=
  super <- DatasetWrapper_init dataset (PyBool true) ;;
  let self := {| rd_super := super; _samples := None |} in
  match samples with
  | PyNone =>
      dataset <- wrapped (rd_super self) ;;
      ResampledDataset_set_samples (PyNdarray (array (arange (ds_len dataset)))) self
  | _ => ResampledDataset_set_samples samples self
  end.

(** [ResampledDataset.__getitem__(self, idx)] *)
Definition ResampledDataset_getitem (self : ResampledDataset) (idx : Z)
  : result Row :=
  samples <- match _samples self with
             | Some s => Ok s
             | None => Raise TypeError
             end ;;
  sample <- py_getitem samples idx ;;
  dataset <- wrapped (rd_super self) ;;
  ds_getitem dataset sample.

(** [ResampledDataset.__len__(self)] *)
Definition ResampledDataset_len (self : ResampledDataset) : result Z :=
  match _samples self with
  | Some s => Ok (Z.of_nat (List.length s))
  | None => Raise TypeError
  end.

End Model.

Arguments Dataset : clear implicits.
Arguments object : clear implicits.
Arguments DatasetWrapper : clear implicits.
Arguments PartitionedDataset : clear implicits.
Arguments ResampledDataset : clear implicits.

(** ** The life of a view: construction, then any sequence of calls *)

Section Lifetime.

Context {Row : Type}.

(** Assigning [view.dataset = obj] on a derived view runs the inherited
    setter on the wrapper part of the object. *)
Definition PartitionedDataset_set_dataset (obj : object Row) (self : PartitionedDataset Row)
  : result (PartitionedDataset Row) :=
  super <- DatasetWrapper_set_dataset obj (pd_super self) ;;
  Ok {| pd_super := super;
        _partition_names := _partition_names self;
        _partition_sizes := _partition_sizes self;
        _partition_offsets := _partition_offsets self;
        _active_partition_idx := _active_partition_idx self |}.

Definition ResampledDataset_set_dataset (obj : object Row) (self : ResampledDataset Row)
  : result (ResampledDataset Row) :=
  super <- DatasetWrapper_set_dataset obj (rd_super self) ;;
  Ok {| rd_super := super; _samples := _samples self |}.

(** The mutating entry points of a [PartitionedDataset]. *)
Inductive pd_op : Type :=
| PdSetActivePartition (partition : string)
| PdTrain
| PdVal
| PdTest
| PdSetDataset (obj : object Row).

Definition pd_method (op : pd_op) : PartitionedDataset Row -> result (PartitionedDataset Row) :=
  match op with
  | PdSetActivePartition partition => set_active_partition partition
  | PdTrain => PartitionedDataset_train
  | PdVal => PartitionedDataset_val
  | PdTest => PartitionedDataset_test
  | PdSetDataset obj => PartitionedDataset_set_dataset obj
  end.

(** The mutating entry points of a [ResampledDataset]: the assignments to
    its two properties.  (The array that the [samples] property returns is
    the stored one; a write into it is [ResampledDataset_write_sample]
    below, which is not among these calls.) *)
Inductive rd_op : Type :=
| RdSetSamples (samples : object Row)
| RdSetDataset (obj : object Row).

Definition rd_method (op : rd_op) : ResampledDataset Row -> result (ResampledDataset Row) :=
  match op with
  | RdSetSamples samples => ResampledDataset_set_samples samples
  | RdSetDataset obj => ResampledDataset_set_dataset obj
  end.

(** A view that a client holds and changes through these entry points
    only: returned by the constructor, then subjected to calls, each of
    which may succeed or raise.  A [ResampledDataset] whose sample array
    has been written in place need not be among them. *)
Inductive pd_view : PartitionedDataset Row -> Prop :=
| pd_view_init (dataset partitions : object Row) (v : PartitionedDataset Row) :
    PartitionedDataset_init dataset partitions = Ok v -> pd_view v
| pd_view_call (op : pd_op) (v : PartitionedDataset Row) :
    pd_view v -> pd_view (fst (call (pd_method op) v)).

Inductive rd_view : ResampledDataset Row -> Prop :=
| rd_view_init (dataset samples : object Row) (v : ResampledDataset Row) :
    ResampledDataset_init dataset samples = Ok v -> rd_view v
| rd_view_call (op : rd_op) (v : ResampledDataset Row) :
    rd_view v -> rd_view (fst (call (rd_method op) v)).

(** A sequence of calls, in order; a call that raises leaves the view as it
    was and the client goes on. *)
Definition pd_run (ops : list pd_op) (v : PartitionedDataset Row) : PartitionedDataset Row :=
  fold_left (fun v op => fst (call (pd_method op) v)) ops v.

Definition rd_run (ops : list rd_op) (v : ResampledDataset Row) : ResampledDataset Row :=
  fold_left (fun v op => fst (call (rd_method op) v)) ops v.

(** What holds of a [PartitionedDataset] from the return of its constructor
    on: the wrapper holds the dataset it was built on and is locked, names
    and sizes are aligned, the offsets are the running sums of the sizes,
    and the cursor designates one of the partitions. *)
Record pd_inv (d : Dataset Row) (v : PartitionedDataset Row) : Prop := {
  pd_inv_dataset : _dataset (pd_super v) = Some d;
  pd_inv_lock : _lock_dataset (pd_super v) = Some true;
  pd_inv_aligned : List.length (_partition_sizes v) = List.length (_partition_names v);
  pd_inv_two : (2 <= List.length (_partition_names v))%nat;
  pd_inv_offsets : _partition_offsets v = cumsum (_partition_sizes v);
  pd_inv_active : exists k, _active_partition_idx v = Some (Z.of_nat k) /\
                            (k < List.length (_partition_names v))%nat
}.

Record rd_inv (d : Dataset Row) (v : ResampledDataset Row) : Prop := {
  rd_inv_dataset : _dataset (rd_super v) = Some d;
  rd_inv_lock : _lock_dataset (rd_super v) = Some true;
  rd_inv_samples : exists s, _samples v = Some s /\ s <> [] /\
                             Forall (fun i => 0 <= i < ds_len d) s
}.

(** The partition specifications that the basic validation refuses:
    fewer than two partitions, or a value that is zero or negative.  As in
    the source, the values tested are those supplied, before any fraction
    is rounded: a positive fraction that rounds to zero is not among
    them. *)
Definition supplied_too_few_or_nonpositive (partitions : dict number) : Prop :=
  (List.length partitions < 2)%nat \/
  (exists size, In size (dict_values partitions) /\ py_le size (PyInt 0) = true).

(** Then those with bad sizes, [sizes] being what the conversion of the
    fractions leaves: a size that is not an integer, [int] sizes whose sum
    is not [len(dataset)], or more generally sizes whose Python sum is not
    equal to [len(dataset)]. *)
Definition bad_sizes (d : Dataset Row) (partitions : dict number) : Prop :=
  exists sizes, convert_fractional (PyDataset d) partitions = Ok sizes /\
    ((exists size, In size (dict_values sizes) /\ integral size = false) \/
     (Forall (fun size => is_int size = true) (dict_values sizes) /\
      int_sum (dict_values sizes) <> ds_len d) \/
     (exists total, py_sum (dict_values sizes) = Ok total /\
                    py_eq total (PyInt (ds_len d)) = false)).

(** A NaN or an infinity among the sizes. *)
Definition non_finite_size (partitions : dict number) : Prop :=
  exists size, In size (dict_values partitions) /\ finite_number size = false.

(** The start offset of partition [k]: the sizes before it, summed. *)
Definition start_offset (sizes : list Z) (k : nat) : Z :=
  fold_right Z.add 0 (firstn k sizes).



(** What the [dataset] and [samples] properties hand to a caller, as
    values: [None] while the attribute is unset. *)
Definition object_of_dataset (dataset : option (Dataset Row)) : object Row :=
  match dataset with
  | Some d => PyDataset d
  | None => PyNone
  end.


(** A dictionary of [int] sizes, as a dictionary of numbers. *)
Definition int_dict (sizes : dict Z) : dict number :=
  map (fun '(name, size) => (name, PyInt size)) sizes.

(** The [c_args] properties: the constructor arguments, by name, in
    order. *)
Definition PartitionedDataset_c_args (self : PartitionedDataset Row)
  : result (list (string * object Row)) :=
  let dataset := object_of_dataset (DatasetWrapper_dataset (pd_super self)) in
  partitions <- PartitionedDataset_partitions self ;;
  Ok [("dataset"%string, dataset); ("partitions"%string, PyDict (int_dict partitions))].



Definition PartitionedDataset_as_Dataset (self : PartitionedDataset Row) : Dataset Row :=
  {| ds_len := match PartitionedDataset_len self with Ok n => n | Raise _ => 0 end;
     ds_getitem := PartitionedDataset_getitem self |}.

(** A dataset held in memory as a sequence of rows, indexed like a Python
    sequence. *)
Definition list_dataset (rows : list Row) : Dataset Row :=
  {| ds_len := Z.of_nat (List.length rows);
     ds_getitem := py_getitem rows |}.

End Lifetime.

(** ** Concrete data for the examples *)

(** A dataset of [n] rows whose row [i] is the integer [i]. *)
Definition range_dataset (n : Z) : Dataset Z := list_dataset (arange n).

Definition rows4 : Dataset Z := list_dataset [10; 11; 12; 13].
Definition rows3 : Dataset Z := list_dataset [20; 21; 22].
Definition other3 : Dataset Z := list_dataset [30; 31; 32].

Definition duplicated : ndarray := array [0; 0; 2].

(** The floats 0.5, 1.5 and 2.5 (exact in binary64). *)
Definition f0_5 : number := PyFloat (S754_finite false 4503599627370496 (-53)).
Definition f1_5 : number := PyFloat (S754_finite false 6755399441055744 (-52)).
Definition f2_5 : number := PyFloat (S754_finite false 5629499534213120 (-51)).

Definition first_rest : dict number :=
  [("first"%string, PyInt 1); ("rest"%string, PyInt 3)].

Definition two_halves : dict number :=
  [("train"%string, PyInt 2); ("val"%string, PyInt 2)].

(** The view built on [rows4] with [two_halves], and the one built on
    [rows3] with the samples [duplicated]. *)
Definition two_halves_view : PartitionedDataset Z :=
  {| pd_super := {| _dataset := Some rows4; _lock_dataset := Some true |};
     _partition_names := ["train"%string; "val"%string];
     _partition_sizes := [2; 2];
     _partition_offsets := [2; 4];
     _active_partition_idx := Some 0 |}.

Definition first_rest_view : PartitionedDataset Z :=
  {| pd_super := {| _dataset := Some rows4; _lock_dataset := Some true |};
     _partition_names := ["first"%string; "rest"%string];
     _partition_sizes := [1; 3];
     _partition_offsets := [1; 4];
     _active_partition_idx := Some 0 |}.

Definition duplicated_view : ResampledDataset Z :=
  {| rd_super := {| _dataset := Some rows3; _lock_dataset := Some true |};
     _samples := Some [0; 0; 2] |}.

Definition thirds : dict Z :=
  [("first"%string, 1); ("second"%string, 1); ("third"%string, 2)].

Definition thirds_view : PartitionedDataset Z :=
  {| pd_super := {| _dataset := Some rows4; _lock_dataset := Some true |};
     _partition_names := ["first"%string; "second"%string; "third"%string];
     _partition_sizes := [1; 1; 2];
     _partition_offsets := [1; 2; 4];
     _active_partition_idx := Some 0 |}.

Definition train70_val30 : dict number :=
  [("train"%string, f0_7); ("val"%string, f0_3)].

(** [two_halves_view] with [val] active; the view built on a dataset of
    100 rows with [train70_val30]; a resample of [duplicated_view] and a
    resample of [two_halves_val_view]. *)
Definition two_halves_val_view : PartitionedDataset Z :=
  {| pd_super := {| _dataset := Some rows4; _lock_dataset := Some true |};
     _partition_names := ["train"%string; "val"%string];
     _partition_sizes := [2; 2];
     _partition_offsets := [2; 4];
     _active_partition_idx := Some 1 |}.

Definition train70_view : PartitionedDataset Z :=
  {| pd_super := {| _dataset := Some (range_dataset 100); _lock_dataset := Some true |};
     _partition_names := ["train"%string; "val"%string];
     _partition_sizes := [70; 30];
     _partition_offsets := [70; 100];
     _active_partition_idx := Some 0 |}.




Definition resample_of_val : ResampledDataset Z :=
  {| rd_super := {| _dataset := Some (PartitionedDataset_as_Dataset two_halves_val_view);
                    _lock_dataset := Some true |};
     _samples := Some [1; 0; 1] |}.

(** * Properties *)

(** ** Generic facts about the error monad and sequences *)

Lemma bind_Ok_inv {A B : Type} (m : result A) (k : A -> result B) (b : B) :
  bind m k = Ok b -> exists a, m = Ok a /\ k a = Ok b.
Proof.
  destruct m as [a|e]; simpl; intros H.
  - exists a. split; [reflexivity | exact H].
  - discriminate H.
Qed.

Lemma py_assert_Ok_inv (cond : bool) (u : unit) :
  py_assert cond = Ok u -> cond = true.
Proof. destruct cond; simpl; [reflexivity | discriminate]. Qed.

Ltac inv_bind H :=
  let a := fresh "a" in
  let Ha := fresh "Ha" in
  apply bind_Ok_inv in H; destruct H as (a & Ha & H).

Tactic Notation "bind_inv" hyp(H) "as" ident(a) ident(Ha) :=
  apply bind_Ok_inv in H; destruct H as (a & Ha & H).

Lemma call_Raise {S : Type} (method : S -> result S) (self : S) (e : exn) :
  method self = Raise e -> call method self = (self, Some e).
Proof. unfold call. intros ->. reflexivity. Qed.

Lemma call_Ok {S : Type} (method : S -> result S) (self self' : S) :
  method self = Ok self' -> call method self = (self', None).
Proof. unfold call. intros ->. reflexivity. Qed.

Lemma py_getitem_nonneg {A : Type} (seq : list A) (i : Z) (x : A) :
  0 <= i -> nth_error seq (Z.to_nat i) = Some x -> py_getitem seq i = Ok x.
Proof.
  intros Hi Hnth.
  assert (Hlt : (Z.to_nat i < List.length seq)%nat).
  { apply nth_error_Some. rewrite Hnth. discriminate. }
  unfold py_getitem.
  replace (i <? 0) with false by (symmetry; apply Z.ltb_ge; lia).
  replace (0 <=? i) with true by (symmetry; apply Z.leb_le; lia).
  replace (i <? Z.of_nat (List.length seq)) with true
    by (symmetry; apply Z.ltb_lt; lia).
  simpl. rewrite Hnth. reflexivity.
Qed.

Lemma py_getitem_past_end {A : Type} (seq : list A) (i : Z) :
  Z.of_nat (List.length seq) <= i -> py_getitem seq i = Raise IndexError.
Proof.
  intros Hi. unfold py_getitem.
  replace (i <? 0) with false by (symmetry; apply Z.ltb_ge; lia).
  replace (i <? Z.of_nat (List.length seq)) with false
    by (symmetry; apply Z.ltb_ge; lia).
  rewrite andb_false_r. reflexivity.
Qed.

Lemma py_getitem_before_start {A : Type} (seq : list A) (i : Z) :
  i < - Z.of_nat (List.length seq) -> py_getitem seq i = Raise IndexError.
Proof.
  intros Hi. unfold py_getitem.
  replace (i <? 0) with true by (symmetry; apply Z.ltb_lt; lia).
  replace (0 <=? i + Z.of_nat (List.length seq)) with false
    by (symmetry; apply Z.leb_gt; lia).
  reflexivity.
Qed.

Lemma py_getitem_negative {A : Type} (seq : list A) (i : Z) :
  - Z.of_nat (List.length seq) <= i < 0 ->
  py_getitem seq i = py_getitem seq (i + Z.of_nat (List.length seq)).
Proof.
  intros Hi. unfold py_getitem.
  replace (i <? 0) with true by (symmetry; apply Z.ltb_lt; lia).
  replace (i + Z.of_nat (List.length seq) <? 0) with false
    by (symmetry; apply Z.ltb_ge; lia).
  reflexivity.
Qed.

Lemma py_getitem_in_range {A : Type} (seq : list A) (i : Z) :
  0 <= i < Z.of_nat (List.length seq) ->
  exists x, nth_error seq (Z.to_nat i) = Some x /\ py_getitem seq i = Ok x.
Proof.
  intros Hi.
  destruct (nth_error seq (Z.to_nat i)) as [x|] eqn:Hnth.
  - exists x. split; [reflexivity|]. apply py_getitem_nonneg; [lia | exact Hnth].
  - apply nth_error_None in Hnth. lia.
Qed.

(** ** [DatasetWrapper] *)

Section WrapperFacts.

Context {Row : Type}.

Lemma DatasetWrapper_init_dataset (A : Dataset Row) (flag : object Row) :
  DatasetWrapper_init (PyDataset A) flag =
  Ok {| _dataset := Some A;
        _lock_dataset := Some match flag with PyBool b => b | _ => true end |}.
Proof. destruct flag; reflexivity. Qed.

Lemma DatasetWrapper_init_Ok_inv (dataset flag : object Row) (w : DatasetWrapper Row) :
  DatasetWrapper_init dataset flag = Ok w ->
  exists A, dataset = PyDataset A /\ _dataset w = Some A /\
            _lock_dataset w = Some match flag with PyBool b => b | _ => true end.
Proof.
  destruct dataset as [| | | | | |A]; try discriminate.
  rewrite DatasetWrapper_init_dataset. intros [= <-].
  exists A. repeat split.
Qed.

Lemma set_dataset_locked (w : DatasetWrapper Row) (A : Dataset Row) (B : object Row) :
  _dataset w = Some A -> _lock_dataset w = Some true ->
  DatasetWrapper_set_dataset B w = Raise AssertionError.
Proof.
  intros HA HL. unfold DatasetWrapper_set_dataset. rewrite HA, HL. reflexivity.
Qed.

Lemma set_dataset_unlocked (w : DatasetWrapper Row) (B : Dataset Row) :
  _lock_dataset w = Some false ->
  DatasetWrapper_set_dataset (PyDataset B) w =
  Ok {| _dataset := Some B; _lock_dataset := Some false |}.
Proof.
  intros HL. unfold DatasetWrapper_set_dataset. rewrite HL.
  destruct (_dataset w); reflexivity.
Qed.

(** C5.  Lock enforcement on the wrapper.  Constructed with
    [lock_dataset=True] around [A], every assignment [wrapper.dataset = B]
    raises [AssertionError] and the wrapper still holds [A]; constructed
    with [lock_dataset=False], assigning a dataset [B] succeeds and the
    [dataset] property then returns [B]; whatever is passed as
    [lock_dataset], the lock is that value when it is a [bool] and [True]
    otherwise. *)
Theorem lock_enforcement (A : Dataset Row) :
  (exists w, DatasetWrapper_init (PyDataset A) (PyBool true) = Ok w /\
     forall B : object Row,
       call (DatasetWrapper_set_dataset B) w = (w, Some AssertionError) /\
       DatasetWrapper_dataset (fst (call (DatasetWrapper_set_dataset B) w)) = Some A) /\
  (exists w, DatasetWrapper_init (PyDataset A) (PyBool false) = Ok w /\
     forall B : Dataset Row,
       exists w', call (DatasetWrapper_set_dataset (PyDataset B)) w = (w', None) /\
                  DatasetWrapper_dataset w' = Some B) /\
  (forall flag : object Row,
     exists w, DatasetWrapper_init (PyDataset A) flag = Ok w /\
               DatasetWrapper_dataset w = Some A /\
               _lock_dataset w = Some match flag with PyBool b => b | _ => true end).
Proof.
  split; [|split].
  - exists {| _dataset := Some A; _lock_dataset := Some true |}.
    split; [reflexivity|]. intros B.
    rewrite (call_Raise _ _ AssertionError).
    + split; reflexivity.
    + apply (set_dataset_locked _ A); reflexivity.
  - exists {| _dataset := Some A; _lock_dataset := Some false |}.
    split; [reflexivity|]. intros B.
    exists {| _dataset := Some B; _lock_dataset := Some false |}.
    split; [|reflexivity].
    apply call_Ok. apply set_dataset_unlocked. reflexivity.
  - intros flag. eexists. split; [apply DatasetWrapper_init_dataset|].
    split; reflexivity.
Qed.

End WrapperFacts.

(** ** Invariants of the derived views *)

Lemma py_index_Ok_inv (seq : list string) (x : string) (i : Z) :
  py_index seq x = Ok i ->
  exists k, i = Z.of_nat k /\ nth_error seq k = Some x /\
            forall j, (j < k)%nat -> nth_error seq j <> Some x.
Proof.
  revert i. induction seq as [|y seq IH]; simpl; intros i H; [discriminate|].
  destruct (String.eqb y x) eqn:E.
  - injection H as <-. apply String.eqb_eq in E. subst y.
    exists 0%nat. repeat split. intros j Hj. lia.
  - inv_bind H. injection H as <-.
    destruct (IH _ Ha) as (k & -> & Hk & Hfirst).
    exists (S k). split; [lia|]. split; [exact Hk|].
    intros [|j] Hj; simpl.
    + intros [= ->]. rewrite String.eqb_refl in E. discriminate.
    + apply Hfirst. lia.
Qed.

Lemma py_contains_index (seq : list string) (x : string) :
  py_contains seq x = true -> exists i, py_index seq x = Ok i.
Proof.
  induction seq as [|y seq IH]; simpl; [discriminate|].
  destruct (String.eqb y x); [eexists; reflexivity|].
  intros H. destruct (IH H) as (i & ->). eexists. reflexivity.
Qed.

Lemma py_contains_In (seq : list string) (x : string) :
  py_contains seq x = true <-> In x seq.
Proof.
  induction seq as [|y seq IH]; simpl; [split; [discriminate | tauto]|].
  destruct (String.eqb y x) eqn:E.
  - apply String.eqb_eq in E. tauto.
  - apply String.eqb_neq in E. rewrite IH. tauto.
Qed.

Lemma comprehension_length {A B : Type} (f : A -> result B) (xs : list A) (ys : list B) :
  comprehension f xs = Ok ys -> List.length ys = List.length xs.
Proof.
  revert ys. induction xs as [|x xs IH]; simpl; intros ys H.
  - injection H as <-. reflexivity.
  - inv_bind H. inv_bind H. injection H as <-. simpl. f_equal. apply IH. assumption.
Qed.

Section ViewInvariants.

Context {Row : Type}.

Lemma set_active_partition_Ok_inv (p : string) (v v' : PartitionedDataset Row) :
  set_active_partition p v = Ok v' ->
  exists k, nth_error (_partition_names v) k = Some p /\
            (forall j, (j < k)%nat -> nth_error (_partition_names v) j <> Some p) /\
            v' = {| pd_super := pd_super v;
                    _partition_names := _partition_names v;
                    _partition_sizes := _partition_sizes v;
                    _partition_offsets := _partition_offsets v;
                    _active_partition_idx := Some (Z.of_nat k) |}.
Proof.
  unfold set_active_partition. intros H.
  inv_bind H. inv_bind H. injection H as <-.
  destruct (py_index_Ok_inv _ _ _ Ha0) as (k & -> & Hk & Hfirst).
  exists k. repeat split; assumption.
Qed.

Lemma set_active_partition_total (p : string) (v : PartitionedDataset Row) :
  In p (_partition_names v) -> exists v', set_active_partition p v = Ok v'.
Proof.
  intros Hin. apply py_contains_In in Hin.
  unfold set_active_partition. rewrite Hin. simpl.
  destruct (py_contains_index _ _ Hin) as (i & ->). simpl. eexists. reflexivity.
Qed.

Lemma set_active_partition_missing (p : string) (v : PartitionedDataset Row) :
  ~ In p (_partition_names v) -> set_active_partition p v = Raise AssertionError.
Proof.
  intros Hin. unfold set_active_partition.
  destruct (py_contains (_partition_names v) p) eqn:E.
  - apply py_contains_In in E. contradiction.
  - reflexivity.
Qed.

Lemma set_active_partition_inv (d : Dataset Row) (p : string) (v v' : PartitionedDataset Row) :
  pd_inv d v -> set_active_partition p v = Ok v' -> pd_inv d v'.
Proof.
  intros [Hd Hl Ha H2 Ho _] H.
  destruct (set_active_partition_Ok_inv _ _ _ H) as (k & Hk & _ & ->).
  constructor; simpl; try assumption.
  exists k. split; [reflexivity|]. apply nth_error_Some. rewrite Hk. discriminate.
Qed.

Lemma PartitionedDataset_set_dataset_locked
      (d : Dataset Row) (obj : object Row) (v : PartitionedDataset Row) :
  pd_inv d v -> PartitionedDataset_set_dataset obj v = Raise AssertionError.
Proof.
  intros [Hd Hl _ _ _ _]. unfold PartitionedDataset_set_dataset.
  rewrite (set_dataset_locked _ d); [reflexivity | assumption | assumption].
Qed.

Lemma pd_method_inv (d : Dataset Row) (op : pd_op) (v : PartitionedDataset Row) :
  pd_inv d v -> pd_inv d (fst (call (pd_method op) v)).
Proof.
  intros Hinv. unfold call.
  destruct (pd_method op v) as [v'|e] eqn:E; simpl; [|assumption].
  destruct op; simpl in E;
    try (eapply set_active_partition_inv; [exact Hinv | exact E]).
  rewrite (PartitionedDataset_set_dataset_locked d) in E by assumption.
  discriminate.
Qed.

Lemma PartitionedDataset_init_inv (dataset partitions : object Row) (v : PartitionedDataset Row) :
  PartitionedDataset_init dataset partitions = Ok v ->
  exists d, dataset = PyDataset d /\ pd_inv d v.
Proof.
  unfold PartitionedDataset_init. intros H.
  bind_inv H as super Hsuper.
  destruct (DatasetWrapper_init_Ok_inv _ _ _ Hsuper) as (d & -> & Hd & Hl).
  exists d. split; [reflexivity|].
  bind_inv H as parts0 Hparts0. clear Hparts0.
  bind_inv H as u1 Htwo. apply py_assert_Ok_inv, Z.leb_le in Htwo.
  bind_inv H as smallest Hmin. bind_inv H as u2 Hpos.
  bind_inv H as parts Hparts.
  bind_inv H as u3 Hint. bind_inv H as total2 Htotal2.
  bind_inv H as n Hn. bind_inv H as u4 Hsum. bind_inv H as sizes Hsizes.
  assert (Hlen : List.length (dict_keys parts) = List.length parts0).
  { unfold dict_keys. rewrite length_map.
    unfold convert_fractional in Hparts. bind_inv Hparts as total Htotal.
    destruct (py_le total (PyInt 1)).
    - clear - Hparts. revert parts Hparts.
      induction parts0 as [|[k x] parts0 IH]; simpl; intros parts H.
      + injection H as <-. reflexivity.
      + inv_bind H. inv_bind H. injection H as <-. simpl. f_equal. apply IH. assumption.
    - injection Hparts as <-. reflexivity. }
  set (self := {| pd_super := super; _partition_names := dict_keys parts;
                  _partition_sizes := sizes; _partition_offsets := cumsum sizes;
                  _active_partition_idx := None |}) in H.
  assert (Hpre : forall p v', set_active_partition p self = Ok v' -> pd_inv d v').
  { intros p v' Hset.
    destruct (set_active_partition_Ok_inv _ _ _ Hset) as (k & Hk & _ & ->).
    constructor; simpl; try assumption.
    - apply (comprehension_length _ _ _ Hsizes).
    - lia.
    - reflexivity.
    - exists k. split; [reflexivity|]. apply nth_error_Some.
      unfold self in Hk. simpl in Hk. rewrite Hk. discriminate. }
  destruct (py_contains (dict_keys parts) "train"%string).
  - eapply Hpre. exact H.
  - inv_bind H. eapply Hpre. exact H.
Qed.

Theorem pd_view_inv (v : PartitionedDataset Row) :
  pd_view v -> exists d, pd_inv d v.
Proof.
  induction 1 as [dataset partitions v H | op v _ (d & IH)].
  - destruct (PartitionedDataset_init_inv _ _ _ H) as (d & _ & Hinv).
    exists d. exact Hinv.
  - exists d. apply pd_method_inv. exact IH.
Qed.

End ViewInvariants.

(** ** NumPy reductions and ranges *)

Lemma flatten_array (xs : list Z) : flatten (array xs) = xs.
Proof.
  unfold array. simpl. induction xs as [|x xs IH]; simpl; [reflexivity|].
  f_equal. exact IH.
Qed.





Lemma fold_min_spec (xs : list Z) (x : Z) :
  In (fold_left Z.min xs x) (x :: xs) /\
  Forall (fun y => fold_left Z.min xs x <= y) (x :: xs).
Proof.
  revert x. induction xs as [|y xs IH]; intros x; simpl.
  - split; [left; reflexivity | constructor; [lia | constructor]].
  - destruct (IH (Z.min x y)) as (Hin & Hall).
    apply Forall_cons_iff in Hall. destruct Hall as (Hhd & Htl).
    split.
    + destruct Hin as [Hin|Hin]; [|right; right; exact Hin].
      rewrite <- Hin. destruct (Z.min_spec x y) as [(_ & ->)|(_ & ->)]; tauto.
    + constructor; [lia|]. constructor; [lia | exact Htl].
Qed.

Lemma fold_max_spec (xs : list Z) (x : Z) :
  In (fold_left Z.max xs x) (x :: xs) /\
  Forall (fun y => y <= fold_left Z.max xs x) (x :: xs).
Proof.
  revert x. induction xs as [|y xs IH]; intros x; simpl.
  - split; [left; reflexivity | constructor; [lia | constructor]].
  - destruct (IH (Z.max x y)) as (Hin & Hall).
    apply Forall_cons_iff in Hall. destruct Hall as (Hhd & Htl).
    split.
    + destruct Hin as [Hin|Hin]; [|right; right; exact Hin].
      rewrite <- Hin. destruct (Z.max_spec x y) as [(_ & ->)|(_ & ->)]; tauto.
    + constructor; [lia|]. constructor; [lia | exact Htl].
Qed.

Lemma np_min_spec (a : list Z) (m : Z) :
  np_min a = Ok m -> In m a /\ Forall (fun y => m <= y) a.
Proof.
  destruct a as [|x a]; simpl; [discriminate|].
  intros [= <-]. apply fold_min_spec.
Qed.

Lemma np_max_spec (a : list Z) (m : Z) :
  np_max a = Ok m -> In m a /\ Forall (fun y => y <= m) a.
Proof.
  destruct a as [|x a]; simpl; [discriminate|].
  intros [= <-]. apply fold_max_spec.
Qed.

Lemma np_min_total (a : list Z) : a <> [] -> exists m, np_min a = Ok m.
Proof. destruct a; [contradiction | eexists; reflexivity]. Qed.

Lemma np_max_total (a : list Z) : a <> [] -> exists m, np_max a = Ok m.
Proof. destruct a; [contradiction | eexists; reflexivity]. Qed.

Lemma arange_length (n : Z) : List.length (arange n) = Z.to_nat n.
Proof. unfold arange. rewrite length_map, length_seq. reflexivity. Qed.

Lemma arange_nth (n i : Z) :
  0 <= i < n -> nth_error (arange n) (Z.to_nat i) = Some i.
Proof.
  intros Hi. unfold arange.
  rewrite nth_error_map.
  rewrite nth_error_seq.
  replace (Z.to_nat i <? Z.to_nat n)%nat with true
    by (symmetry; apply Nat.ltb_lt; lia).
  simpl. f_equal. lia.
Qed.

Lemma arange_range (n : Z) : Forall (fun i => 0 <= i < n) (arange n).
Proof.
  unfold arange. apply Forall_forall. intros x Hx.
  apply in_map_iff in Hx. destruct Hx as (k & <- & Hk).
  apply in_seq in Hk. lia.
Qed.

Lemma arange_nonempty (n : Z) : 0 < n -> arange n <> [].
Proof.
  intros Hn H. apply (f_equal (@List.length Z)) in H.
  rewrite arange_length in H. simpl in H. lia.
Qed.

(** ** [ResampledDataset] *)

Section ResampleFacts.

Context {Row : Type}.

Lemma set_samples_Ok_inv (d : Dataset Row) (samples : object Row)
      (v v' : ResampledDataset Row) :
  _dataset (rd_super v) = Some d ->
  ResampledDataset_set_samples samples v = Ok v' ->
  exists a, samples = PyNdarray a /\
            v' = {| rd_super := rd_super v; _samples := Some (flatten a) |} /\
            flatten a <> [] /\
            Forall (fun s => 0 <= s < ds_len d) (flatten a).
Proof.
  intros Hd H. unfold ResampledDataset_set_samples in H.
  bind_inv H as a Ha.
  destruct samples as [| | | | |a'|]; try discriminate.
  injection Ha as <-. exists a'. split; [reflexivity|].
  bind_inv H as lowest Hmin. bind_inv H as u1 Hlow.
  bind_inv H as highest Hmax. bind_inv H as d' Hd'.
  bind_inv H as u2 Hhigh. injection H as <-.
  unfold wrapped, DatasetWrapper_dataset in Hd'. rewrite Hd in Hd'.
  injection Hd' as <-.
  apply py_assert_Ok_inv in Hlow, Hhigh.
  apply Z.geb_le in Hlow. apply Z.ltb_lt in Hhigh.
  destruct (np_min_spec _ _ Hmin) as (Hin & Hge).
  destruct (np_max_spec _ _ Hmax) as (_ & Hle).
  split; [reflexivity|]. split.
  - intros E. rewrite E in Hin. contradiction.
  - rewrite Forall_forall in *. intros s Hs.
    specialize (Hge s Hs). specialize (Hle s Hs). lia.
Qed.


Lemma set_samples_in_range (d : Dataset Row) (a : ndarray) (v : ResampledDataset Row) :
  _dataset (rd_super v) = Some d ->
  flatten a <> [] ->
  Forall (fun s => 0 <= s < ds_len d) (flatten a) ->
  ResampledDataset_set_samples (PyNdarray a) v =
  Ok {| rd_super := rd_super v; _samples := Some (flatten a) |}.
Proof.
  intros Hd Hne Hall.
  unfold ResampledDataset_set_samples. simpl.
  destruct (np_min_total _ Hne) as (lowest & Hmin).
  destruct (np_max_total _ Hne) as (highest & Hmax).
  destruct (np_min_spec _ _ Hmin) as (Hlo & _).
  destruct (np_max_spec _ _ Hmax) as (Hhi & _).
  rewrite Forall_forall in Hall.
  pose proof (Hall _ Hlo) as Hlo'. pose proof (Hall _ Hhi) as Hhi'.
  rewrite Hmin. simpl.
  replace (lowest >=? 0) with true by (symmetry; apply Z.geb_le; lia).
  simpl. rewrite Hmax. simpl.
  unfold wrapped, DatasetWrapper_dataset. rewrite Hd. simpl.
  replace (highest <? ds_len d) with true by (symmetry; apply Z.ltb_lt; lia).
  reflexivity.
Qed.

Lemma ResampledDataset_init_unfold (d : Dataset Row) (samples : object Row) :
  ResampledDataset_init (PyDataset d) samples =
  ResampledDataset_set_samples
    match samples with
    | PyNone => PyNdarray (array (arange (ds_len d)))
    | _ => samples
    end
    {| rd_super := {| _dataset := Some d; _lock_dataset := Some true |};
       _samples := None |}.
Proof. destruct samples; reflexivity. Qed.

Lemma ResampledDataset_init_inv (dataset samples : object Row) (v : ResampledDataset Row) :
  ResampledDataset_init dataset samples = Ok v ->
  exists d, dataset = PyDataset d /\ rd_inv d v.
Proof.
  intros H.
  destruct dataset as [| | | | | |d];
    try (unfold ResampledDataset_init in H; simpl in H; discriminate).
  exists d. split; [reflexivity|].
  rewrite ResampledDataset_init_unfold in H.
  apply set_samples_Ok_inv with (d := d) in H; [|reflexivity].
  destruct H as (a & _ & -> & Hne & Hall).
  constructor; simpl; try reflexivity.
  exists (flatten a). repeat split; assumption.
Qed.

Lemma ResampledDataset_set_dataset_locked
      (d : Dataset Row) (obj : object Row) (v : ResampledDataset Row) :
  rd_inv d v -> ResampledDataset_set_dataset obj v = Raise AssertionError.
Proof.
  intros [Hd Hl _]. unfold ResampledDataset_set_dataset.
  rewrite (set_dataset_locked _ d); [reflexivity | assumption | assumption].
Qed.

Lemma rd_method_inv (d : Dataset Row) (op : rd_op) (v : ResampledDataset Row) :
  rd_inv d v -> rd_inv d (fst (call (rd_method op) v)).
Proof.
  intros Hinv. unfold call.
  destruct (rd_method op v) as [v'|e] eqn:E; simpl; [|assumption].
  destruct op as [samples|obj]; simpl in E.
  - destruct Hinv as [Hd Hl _].
    destruct (set_samples_Ok_inv d _ _ _ Hd E) as (a & _ & -> & Hne & Hall).
    constructor; simpl; try assumption.
    exists (flatten a). repeat split; assumption.
  - rewrite (ResampledDataset_set_dataset_locked d) in E by assumption.
    discriminate.
Qed.

Theorem rd_view_inv (v : ResampledDataset Row) :
  rd_view v -> exists d, rd_inv d v.
Proof.
  induction 1 as [dataset samples v H | op v _ (d & IH)].
  - destruct (ResampledDataset_init_inv _ _ _ H) as (d & _ & Hinv).
    exists d. exact Hinv.
  - exists d. apply rd_method_inv. exact IH.
Qed.

End ResampleFacts.

(** ** The claims on the [ResampledDataset] *)

Section ResampleClaims.

Context {Row : Type}.

Lemma rd_run_inv (d : Dataset Row) (ops : list rd_op) (v : ResampledDataset Row) :
  rd_inv d v -> rd_inv d (rd_run ops v).
Proof.
  revert v. induction ops as [|op ops IH]; intros v Hinv; simpl; [exact Hinv|].
  apply IH. apply rd_method_inv. exact Hinv.
Qed.

Lemma rd_getitem_unfold (d : Dataset Row) (s : list Z) (v : ResampledDataset Row) (idx : Z) :
  _dataset (rd_super v) = Some d -> _samples v = Some s ->
  ResampledDataset_getitem v idx = (sample <- py_getitem s idx ;; ds_getitem d sample).
Proof.
  intros Hd Hs. unfold ResampledDataset_getitem. rewrite Hs. simpl.
  destruct (py_getitem s idx); simpl; [|reflexivity].
  unfold wrapped, DatasetWrapper_dataset. rewrite Hd. reflexivity.
Qed.

(** C3 (evaluation of the code).  An empty sample array never gets past
    the validation of the [samples] setter: [samples.min()] raises
    [ValueError] on an array of size zero.  So constructing a
    [ResampledDataset] on explicitly empty samples raises, replacing the
    samples of an existing object by empty ones raises, and so does the
    default construction over a dataset without rows. *)
Theorem empty_samples_rejected (d : Dataset Row) :
  ResampledDataset_init (PyDataset d) (PyNdarray (array [])) = Raise ValueError /\
  (forall v : ResampledDataset Row,
     call (ResampledDataset_set_samples (PyNdarray (array []))) v = (v, Some ValueError)) /\
  ResampledDataset_init (PyDataset (list_dataset (@nil Row))) PyNone = Raise ValueError.
Proof.
  split; [|split].
  - rewrite ResampledDataset_init_unfold. reflexivity.
  - intros v. apply call_Raise. reflexivity.
  - reflexivity.
Qed.


(** C4.  Translation through the sample list, and the identity default.
    For every [ResampledDataset] and every index [0 <= i < len(samples)],
    [view[i]] is [dataset[samples[i]]].  Constructed without samples, the
    samples are [0, 1, ..., len(dataset) - 1], the length is
    [len(dataset)] and [view[i]] is [dataset[i]]; that construction
    succeeds on every dataset with at least one row. *)
Theorem resample_translation :
  (forall v : ResampledDataset Row, rd_view v ->
     exists d s, wrapped (rd_super v) = Ok d /\ _samples v = Some s /\
       ResampledDataset_len v = Ok (Z.of_nat (List.length s)) /\
       forall i, 0 <= i < Z.of_nat (List.length s) ->
         exists sample, nth_error s (Z.to_nat i) = Some sample /\
                        ResampledDataset_getitem v i = ds_getitem d sample) /\
  (forall (d : Dataset Row) (v : ResampledDataset Row),
     ResampledDataset_init (PyDataset d) PyNone = Ok v ->
     _samples v = Some (arange (ds_len d)) /\
     ResampledDataset_len v = Ok (ds_len d) /\
     forall i, 0 <= i < ds_len d -> ResampledDataset_getitem v i = ds_getitem d i) /\
  (forall d : Dataset Row, 0 < ds_len d ->
     exists v, ResampledDataset_init (PyDataset d) PyNone = Ok v).
Proof.
  split; [|split].
  - intros v Hv. destruct (rd_view_inv _ Hv) as (d & [Hd _ (s & Hs & _ & _)]).
    exists d, s. split; [|split; [exact Hs|split]].
    + unfold wrapped, DatasetWrapper_dataset. rewrite Hd. reflexivity.
    + unfold ResampledDataset_len. rewrite Hs. reflexivity.
    + intros i Hi. destruct (py_getitem_in_range s i Hi) as (sample & Hnth & Hget).
      exists sample. split; [exact Hnth|].
      rewrite (rd_getitem_unfold d s) by assumption. rewrite Hget. reflexivity.
  - intros d v H. rewrite ResampledDataset_init_unfold in H.
    apply set_samples_Ok_inv with (d := d) in H; [|reflexivity].
    destruct H as (a' & [= <-] & -> & Hne & _).
    rewrite flatten_array in *. simpl.
    assert (Hlen : Z.of_nat (List.length (arange (ds_len d))) = ds_len d).
    { rewrite arange_length.
      destruct (Z_lt_le_dec 0 (ds_len d)) as [Hpos|Hnpos]; [lia|].
      exfalso. apply Hne. unfold arange.
      replace (Z.to_nat (ds_len d)) with 0%nat by lia. reflexivity. }
    split; [reflexivity|]. split.
    + unfold ResampledDataset_len. simpl. rewrite Hlen. reflexivity.
    + intros i Hi.
      rewrite (rd_getitem_unfold d (arange (ds_len d))) by reflexivity.
      rewrite (py_getitem_nonneg _ i i); [reflexivity | lia | apply arange_nth; exact Hi].
  - intros d Hpos. rewrite ResampledDataset_init_unfold.
    eexists. apply (set_samples_in_range d); [reflexivity | |];
      rewrite flatten_array; [apply arange_nonempty; exact Hpos | apply arange_range].
Qed.

(** C2, as the code has it.  [view[idx]] raises [IndexError] for every
    [idx >= len(view)], for both views (in particular [view[len(view)]]).
    On a [ResampledDataset] an index below [-len(view)] raises
    [IndexError] too, but an index [-len(view) <= idx < 0] is not
    rejected: as in NumPy it counts from the end, and [view[idx]] is
    [view[idx + len(view)]]. *)
Theorem index_bounds :
  (forall v : PartitionedDataset Row, pd_view v ->
     exists size, PartitionedDataset_len v = Ok size /\
       forall idx, size <= idx -> PartitionedDataset_getitem v idx = Raise IndexError) /\
  (forall v : ResampledDataset Row, rd_view v ->
     exists n, ResampledDataset_len v = Ok n /\
       (forall idx, n <= idx -> ResampledDataset_getitem v idx = Raise IndexError) /\
       (forall idx, idx < - n -> ResampledDataset_getitem v idx = Raise IndexError) /\
       (forall idx, - n <= idx < 0 ->
          ResampledDataset_getitem v idx = ResampledDataset_getitem v (idx + n))).
Proof.
  split.
  - intros v Hv. destruct (pd_view_inv _ Hv) as (d & [Hd _ Hal _ _ (k & Hk & Hlt)]).
    destruct (py_getitem_in_range (_partition_sizes v) (Z.of_nat k)) as (size & _ & Hsize);
      [lia|].
    exists size. unfold PartitionedDataset_len, PartitionedDataset_getitem.
    rewrite Hk. simpl. rewrite Hsize. split; [reflexivity|].
    intros idx Hidx. simpl.
    replace (idx >=? size) with true by (symmetry; apply Z.geb_le; lia).
    reflexivity.
  - intros v Hv. destruct (rd_view_inv _ Hv) as (d & [Hd _ (s & Hs & _ & _)]).
    exists (Z.of_nat (List.length s)).
    split; [unfold ResampledDataset_len; rewrite Hs; reflexivity|].
    split; [|split]; intros idx Hidx; rewrite !(rd_getitem_unfold d s) by assumption.
    + rewrite py_getitem_past_end by lia. reflexivity.
    + rewrite py_getitem_before_start by lia. reflexivity.
    + rewrite py_getitem_negative by lia. reflexivity.
Qed.

End ResampleClaims.

(** ** The claims on the [PartitionedDataset] *)

Lemma cumsum_from_nth (sizes : list Z) (acc : Z) (k : nat) :
  (k < List.length sizes)%nat ->
  nth_error (cumsum_from acc sizes) k =
  Some (acc + fold_right Z.add 0 (firstn (S k) sizes)).
Proof.
  revert acc k. induction sizes as [|x sizes IH]; intros acc k Hk; simpl in Hk; [lia|].
  destruct k as [|k].
  - simpl. f_equal. destruct sizes; simpl; lia.
  - change (nth_error (cumsum_from (acc + x) sizes) k =
            Some (acc + (x + fold_right Z.add 0 (firstn (S k) sizes)))).
    rewrite IH by lia. f_equal. lia.
Qed.

Lemma cumsum_from_length (sizes : list Z) (acc : Z) :
  List.length (cumsum_from acc sizes) = List.length sizes.
Proof.
  revert acc. induction sizes as [|x sizes IH]; intros acc; simpl; [reflexivity|].
  f_equal. apply IH.
Qed.

Lemma py_getitem_nonneg_inv {A : Type} (seq : list A) (i : Z) (x : A) :
  0 <= i -> py_getitem seq i = Ok x -> nth_error seq (Z.to_nat i) = Some x.
Proof.
  intros Hi. unfold py_getitem.
  replace (i <? 0) with false by (symmetry; apply Z.ltb_ge; lia).
  destruct ((0 <=? i) && (i <? Z.of_nat (List.length seq))); [|discriminate].
  destruct (nth_error seq (Z.to_nat i)); [|discriminate].
  intros [= ->]. reflexivity.
Qed.

Section PartitionClaims.

Context {Row : Type}.

Lemma pd_run_inv (d : Dataset Row) (ops : list pd_op) (v : PartitionedDataset Row) :
  pd_inv d v -> pd_inv d (pd_run ops v).
Proof.
  revert v. induction ops as [|op ops IH]; intros v Hinv; simpl; [exact Hinv|].
  apply IH. apply pd_method_inv. exact Hinv.
Qed.

Lemma active_partition_after_set (p : string) (v v' : PartitionedDataset Row) :
  set_active_partition p v = Ok v' ->
  active_partition v' = Ok p /\ _partition_names v' = _partition_names v.
Proof.
  intros H. destruct (set_active_partition_Ok_inv _ _ _ H) as (k & Hk & _ & ->).
  unfold active_partition. simpl. split; [|reflexivity].
  apply py_getitem_nonneg; [lia|]. rewrite Nat2Z.id. exact Hk.
Qed.

Lemma PartitionedDataset_init_active
      (dataset partitions : object Row) (v : PartitionedDataset Row) :
  PartitionedDataset_init dataset partitions = Ok v ->
  if py_contains (_partition_names v) "train"%string
  then active_partition v = Ok "train"%string
  else exists first, nth_error (_partition_names v) 0 = Some first /\
                     active_partition v = Ok first.
Proof.
  unfold PartitionedDataset_init. intros H.
  bind_inv H as super Hsuper. bind_inv H as parts0 Hparts0.
  bind_inv H as u1 Htwo. bind_inv H as smallest Hmin. bind_inv H as u2 Hpos.
  bind_inv H as parts Hparts.
  bind_inv H as u3 Hint. bind_inv H as total2 Htotal2.
  bind_inv H as n Hn. bind_inv H as u4 Hsum. bind_inv H as sizes Hsizes.
  destruct (py_contains (dict_keys parts) "train"%string) eqn:Etrain.
  - destruct (active_partition_after_set _ _ _ H) as (Hact & Hnames).
    simpl in Hnames. rewrite Hnames, Etrain. exact Hact.
  - bind_inv H as first Hfirst.
    destruct (active_partition_after_set _ _ _ H) as (Hact & Hnames).
    simpl in Hnames. rewrite Hnames, Etrain.
    exists first. split; [|exact Hact].
    apply (py_getitem_nonneg_inv _ 0 first); [lia | exact Hfirst].
Qed.

(** C10.  Derived views are always locked.  Both constructors run the
    wrapper's constructor without a lock flag, so whatever is passed to
    them, a [PartitionedDataset] or [ResampledDataset] that has been
    constructed wraps the dataset it was given with the lock set; and
    after any sequence of calls on the view (successful or not) it still
    wraps that same dataset, still locked, and an assignment to its
    [dataset] raises [AssertionError] and changes nothing. *)
Theorem derived_views_locked :
  (forall (dataset partitions : object Row) (v : PartitionedDataset Row),
     PartitionedDataset_init dataset partitions = Ok v ->
     exists d, dataset = PyDataset d /\
       forall (ops : list pd_op) (obj : object Row),
         DatasetWrapper_dataset (pd_super (pd_run ops v)) = Some d /\
         _lock_dataset (pd_super (pd_run ops v)) = Some true /\
         call (PartitionedDataset_set_dataset obj) (pd_run ops v) =
         (pd_run ops v, Some AssertionError)) /\
  (forall (dataset samples : object Row) (v : ResampledDataset Row),
     ResampledDataset_init dataset samples = Ok v ->
     exists d, dataset = PyDataset d /\
       forall (ops : list rd_op) (obj : object Row),
         DatasetWrapper_dataset (rd_super (rd_run ops v)) = Some d /\
         _lock_dataset (rd_super (rd_run ops v)) = Some true /\
         call (ResampledDataset_set_dataset obj) (rd_run ops v) =
         (rd_run ops v, Some AssertionError)).
Proof.
  split.
  - intros dataset partitions v H.
    destruct (PartitionedDataset_init_inv _ _ _ H) as (d & -> & Hinv).
    exists d. split; [reflexivity|]. intros ops obj.
    pose proof (pd_run_inv d ops v Hinv) as Hrun.
    split; [apply (pd_inv_dataset _ _ Hrun)|].
    split; [apply (pd_inv_lock _ _ Hrun)|].
    apply call_Raise. apply (PartitionedDataset_set_dataset_locked d). exact Hrun.
  - intros dataset samples v H.
    destruct (ResampledDataset_init_inv _ _ _ H) as (d & -> & Hinv).
    exists d. split; [reflexivity|]. intros ops obj.
    pose proof (rd_run_inv d ops v Hinv) as Hrun.
    split; [apply (rd_inv_dataset _ _ Hrun)|].
    split; [apply (rd_inv_lock _ _ Hrun)|].
    apply call_Raise. apply (ResampledDataset_set_dataset_locked d). exact Hrun.
Qed.

(** What [__getitem__] computes, for every view and every index below the
    size of the active partition: with a partition after the first active,
    the row of the dataset at the start offset of the partition plus the
    index; with the first partition active, the offset read is
    [_partition_offsets[-1]], the sum of all the sizes. *)
Theorem partition_getitem_offset (v : PartitionedDataset Row) :
  pd_view v ->
  exists d k size,
    wrapped (pd_super v) = Ok d /\
    _active_partition_idx v = Some (Z.of_nat k) /\
    nth_error (_partition_sizes v) k = Some size /\
    forall idx, idx < size ->
      PartitionedDataset_getitem v idx =
      ds_getitem d
        (start_offset (_partition_sizes v)
           match k with
           | O => List.length (_partition_sizes v)
           | S _ => k
           end + idx).
Proof.
  intros Hv. destruct (pd_view_inv _ Hv) as (d & [Hd _ Hal Htwo Hoff (k & Hk & Hlt)]).
  destruct (py_getitem_in_range (_partition_sizes v) (Z.of_nat k)) as (size & Hnth & Hsize);
    [lia|].
  rewrite Nat2Z.id in Hnth.
  exists d, k, size.
  split; [unfold wrapped, DatasetWrapper_dataset; rewrite Hd; reflexivity|].
  split; [exact Hk|]. split; [exact Hnth|].
  intros idx Hidx. unfold PartitionedDataset_getitem.
  rewrite Hk. simpl. rewrite Hsize. simpl.
  replace (idx >=? size) with false by (symmetry; rewrite Z.geb_leb; apply Z.leb_gt; lia).
  rewrite Hoff. unfold wrapped, DatasetWrapper_dataset. rewrite Hd.
  set (sizes := _partition_sizes v) in *.
  assert (Hlen : List.length (cumsum sizes) = List.length sizes)
    by apply cumsum_from_length.
  destruct k as [|k].
  - (* the first partition: offsets[-1] *)
    change (Z.of_nat 0 - 1) with (-1).
    rewrite py_getitem_negative by (rewrite Hlen; lia).
    rewrite (py_getitem_nonneg _ _ (start_offset sizes (List.length sizes))).
    + reflexivity.
    + rewrite Hlen. lia.
    + rewrite Hlen.
      replace (Z.to_nat (-1 + Z.of_nat (List.length sizes)))
        with (List.length sizes - 1)%nat by lia.
      unfold cumsum. rewrite cumsum_from_nth by lia.
      rewrite Z.add_0_l. unfold start_offset. do 3 f_equal. lia.
  - rewrite (py_getitem_nonneg _ _ (start_offset sizes (S k))).
    + reflexivity.
    + lia.
    + replace (Z.to_nat (Z.of_nat (S k) - 1)) with k by lia.
      unfold cumsum. rewrite cumsum_from_nth by lia. reflexivity.
Qed.

(** C6.  The fractional example: over any dataset of 100 rows the
    partitions [{train: 0.7, val: 0.3}] give the sizes 70 and 30; with
    [val] made active the length is 30 and row 0 is row 70 of the
    dataset. *)
Theorem fractional_partition_example (rows : Z -> result Row) :
  exists v v',
    PartitionedDataset_init
      (PyDataset {| ds_len := 100; ds_getitem := rows |}) (PyDict train70_val30) = Ok v /\
    PartitionedDataset_partitions v = Ok [("train"%string, 70); ("val"%string, 30)] /\
    call (set_active_partition "val"%string) v = (v', None) /\
    PartitionedDataset_len v' = Ok 30 /\
    PartitionedDataset_getitem v' 0 = rows 70.
Proof.
  eexists. eexists.
  split; [vm_compute; reflexivity|].
  split; [vm_compute; reflexivity|].
  split; [vm_compute; reflexivity|].
  split; vm_compute; reflexivity.
Qed.

(** C7.  The default partitioning: over any dataset of 100 rows, without a
    partition specification the sizes are 64, 16 and 20 for [train], [val]
    and [test], and [train] is active.  For every constructed view the
    active partition is [train] when that name is among the partitions, and
    the first partition otherwise. *)
Theorem default_partitioning :
  (forall rows : Z -> result Row,
     exists v,
       PartitionedDataset_init (PyDataset {| ds_len := 100; ds_getitem := rows |}) PyNone
       = Ok v /\
       PartitionedDataset_partitions v =
       Ok [("train"%string, 64); ("val"%string, 16); ("test"%string, 20)] /\
       active_partition v = Ok "train"%string) /\
  (forall (dataset partitions : object Row) (v : PartitionedDataset Row),
     PartitionedDataset_init dataset partitions = Ok v ->
     (In "train"%string (_partition_names v) -> active_partition v = Ok "train"%string) /\
     (~ In "train"%string (_partition_names v) ->
      exists first, nth_error (_partition_names v) 0 = Some first /\
                    active_partition v = Ok first)).
Proof.
  split.
  - intros rows. eexists.
    split; [vm_compute; reflexivity|].
    split; vm_compute; reflexivity.
  - intros dataset partitions v H.
    pose proof (PartitionedDataset_init_active _ _ _ H) as Hact.
    destruct (py_contains (_partition_names v) "train"%string) eqn:E.
    + split; [intros _; exact Hact|].
      intros Hnot. apply py_contains_In in E. contradiction.
    + split; [|intros _; exact Hact].
      intros Hin. apply py_contains_In in Hin. congruence.
Qed.

(** C8.  The constructor lets a partition of size zero through.  The
    check [min(partitions.values()) > 0] runs on the values as they are
    supplied, before the fractions are rounded, and no later check asks
    the rounded sizes to be positive.  Over any dataset of 3 rows the
    default specification has the minimum 0.16 and passes; the fractions
    sum to 1.0 and are converted to [round(1.92) = 2], [round(0.48) = 0]
    and [round(0.6000000000000001) = 1], which are integers and sum to 3.
    So construction does not fail although the sizes contain a zero: it
    returns a view with the sizes 2, 0 and 1, whose partition [val] has
    length 0, raises [IndexError] at index 0 and answers index -1 with
    row 1 of the dataset, a row of [train]. *)
Theorem rounded_empty_partition_accepted (rows : Z -> result Row) :
  py_min (dict_values default_partitions) = Ok f0_16 /\
  py_gt f0_16 (PyInt 0) = true /\
  convert_fractional
    (PyDataset {| ds_len := 3; ds_getitem := rows |}) default_partitions =
  Ok [("train"%string, PyInt 2); ("val"%string, PyInt 0); ("test"%string, PyInt 1)] /\
  exists v v',
    PartitionedDataset_init (PyDataset {| ds_len := 3; ds_getitem := rows |}) PyNone
    = Ok v /\
    PartitionedDataset_init
      (PyDataset {| ds_len := 3; ds_getitem := rows |}) (PyDict default_partitions)
    = Ok v /\
    PartitionedDataset_partitions v =
    Ok [("train"%string, 2); ("val"%string, 0); ("test"%string, 1)] /\
    call PartitionedDataset_val v = (v', None) /\
    PartitionedDataset_len v' = Ok 0 /\
    PartitionedDataset_getitem v' 0 = Raise IndexError /\
    PartitionedDataset_getitem v' (-1) = rows 1.
Proof.
  split; [vm_compute; reflexivity|].
  split; [vm_compute; reflexivity|].
  split; [vm_compute; reflexivity|].
  eexists. eexists.
  split; [vm_compute; reflexivity|].
  split; [vm_compute; reflexivity|].
  split; [vm_compute; reflexivity|].
  split; [vm_compute; reflexivity|].
  split; [vm_compute; reflexivity|].
  split; vm_compute; reflexivity.
Qed.

End PartitionClaims.

(** ** Ordering and integrality of Python numbers *)

Lemma pow2_nonneg (k : Z) : 0 <= k -> 0 < 2 ^ k.
Proof. intros H. apply Z.pow_pos_nonneg; lia. Qed.

Ltac cmp_cases :=
  repeat match goal with
  | |- context [?a ?= ?b] => destruct (Z.compare_spec a b)
  | H : context [?a ?= ?b] |- _ => destruct (Z.compare_spec a b)
  | |- context [?a <=? ?b] => destruct (Z.leb_spec a b)
  | H : context [?a <=? ?b] |- _ => destruct (Z.leb_spec a b)
  end.

Ltac num_simpl :=
  cbn -[Z.mul Z.pow Z.compare Z.leb Z.opp Z.add Z.div Z.modulo Z.eqb] in *.

(** Every case of a comparison of an [int] with a float is settled by the
    sign and linear arithmetic over the powers of two. *)
Ltac float_cases f :=
  let s := fresh "s" in
  let m := fresh "m" in
  let e := fresh "e" in
  destruct f as [s|s| |s m e]; num_simpl;
  try (pose proof (pow2_nonneg e); pose proof (pow2_nonneg (- e)));
  try destruct s; num_simpl; cmp_cases; num_simpl;
  try discriminate; try reflexivity; try nia.

(** The sign of a float, as [x > 0], [x == 0], [x < 0] see it. *)
Lemma py_compare_float_zero (f : spec_float) :
  py_compare (PyFloat f) (PyInt 0) =
  match f with
  | S754_nan => None
  | S754_zero _ => Some Eq
  | S754_infinity s | S754_finite s _ _ => Some (if s then Lt else Gt)
  end.
Proof. float_cases f. Qed.

Lemma py_lt_not_positive (y c : number) :
  py_lt y c = true -> py_gt c (PyInt 0) = false -> py_gt y (PyInt 0) = false.
Proof.
  unfold py_lt, py_gt.
  destruct y as [a|f], c as [b|g]; rewrite ?py_compare_float_zero.
  - num_simpl. cmp_cases; try discriminate; try reflexivity; lia.
  - float_cases g.
  - float_cases f.
  - destruct f as [s|s| |s m e], g as [s'|s'| |s' m' e']; num_simpl;
      try destruct s; try destruct s'; num_simpl; try discriminate; try reflexivity.
Qed.

Lemma py_lt_nonpositive_positive (y c : number) :
  py_le y (PyInt 0) = true -> py_gt c (PyInt 0) = true -> py_lt y c = true.
Proof.
  unfold py_lt, py_gt, py_le.
  destruct y as [a|f], c as [b|g]; rewrite ?py_compare_float_zero.
  - num_simpl. cmp_cases; try discriminate; try reflexivity; lia.
  - float_cases g.
  - float_cases f.
  - destruct f as [s|s| |s m e], g as [s'|s'| |s' m' e']; num_simpl;
      try destruct s; try destruct s'; num_simpl; try discriminate; try reflexivity.
Qed.

Lemma py_le_not_gt (y : number) :
  py_le y (PyInt 0) = true -> py_gt y (PyInt 0) = false.
Proof.
  unfold py_le, py_gt. destruct (py_compare y (PyInt 0)) as [[| |]|];
    try discriminate; reflexivity.
Qed.

(** [min] does not return a positive number when the first item, or the
    candidate so far, is not positive, nor when an item is zero or
    negative. *)
Lemma min_fold_not_positive (xs : list number) (cur : number) :
  py_gt cur (PyInt 0) = false ->
  py_gt (fold_left (fun cur y => if py_lt y cur then y else cur) xs cur) (PyInt 0) = false.
Proof.
  revert cur. induction xs as [|y xs IH]; intros cur Hcur; simpl; [exact Hcur|].
  apply IH. destruct (py_lt y cur) eqn:E; [|exact Hcur].
  apply (py_lt_not_positive y cur); assumption.
Qed.

Lemma min_fold_nonpositive_item (xs : list number) (cur : number) :
  (exists y, In y xs /\ py_le y (PyInt 0) = true) ->
  py_gt (fold_left (fun cur y => if py_lt y cur then y else cur) xs cur) (PyInt 0) = false.
Proof.
  revert cur. induction xs as [|x xs IH]; intros cur (y & Hin & Hy); simpl; [contradiction|].
  destruct Hin as [->|Hin].
  - apply min_fold_not_positive.
    destruct (py_gt cur (PyInt 0)) eqn:Ecur.
    + rewrite (py_lt_nonpositive_positive y cur) by assumption.
      apply py_le_not_gt. exact Hy.
    + destruct (py_lt y cur); [apply py_le_not_gt; exact Hy | exact Ecur].
  - apply IH. exists y. split; assumption.
Qed.

Lemma py_min_nonpositive_item (xs : list number) :
  (exists y, In y xs /\ py_le y (PyInt 0) = true) ->
  exists m, py_min xs = Ok m /\ py_gt m (PyInt 0) = false.
Proof.
  destruct xs as [|x xs]; intros (y & Hin & Hy); [contradiction|].
  eexists. split; [reflexivity|].
  destruct Hin as [->|Hin].
  - apply min_fold_not_positive. apply py_le_not_gt. exact Hy.
  - apply min_fold_nonpositive_item. exists y. split; assumption.
Qed.

(** On a finite number the check [size == int(size)] is the test that its
    value is an integer. *)
Lemma assert_integer_size_finite (x : number) :
  finite_number x = true -> assert_integer_size x = py_assert (integral x).
Proof.
  destruct x as [a|[s|s| |s m e]]; try discriminate; intros _;
    unfold assert_integer_size, py_eq; num_simpl.
  - rewrite Z.compare_refl. reflexivity.
  - reflexivity.
  - destruct (Z.leb_spec 0 e) as [He|He]; num_simpl.
    + replace (cond_Zopp s (Z.pos m * 2 ^ e) ?= cond_Zopp s (Z.pos m) * 2 ^ e) with Eq;
        [reflexivity|].
      symmetry. apply Z.compare_eq_iff.
      destruct s; unfold cond_Zopp; [rewrite Z.mul_opp_l|]; reflexivity.
    + pose proof (pow2_nonneg (- e)) as Hpow.
      pose proof (Z.div_mod (Z.pos m) (2 ^ (- e))) as Hdm.
      destruct (Z.eqb_spec (Z.pos m mod 2 ^ (- e)) 0) as [Hz|Hz].
      * replace (cond_Zopp s (Z.pos m / 2 ^ (- e)) * 2 ^ (- e) ?= cond_Zopp s (Z.pos m))
          with Eq; [reflexivity|].
        symmetry. apply Z.compare_eq_iff. destruct s; unfold cond_Zopp; nia.
      * destruct (Z.compare_spec (cond_Zopp s (Z.pos m / 2 ^ (- e)) * 2 ^ (- e))
                                 (cond_Zopp s (Z.pos m))) as [Heq|Hlt|Hgt];
          try reflexivity.
        exfalso. destruct s; unfold cond_Zopp in Heq; nia.
Qed.

Lemma is_int_finite (x : number) : is_int x = true -> finite_number x = true.
Proof. destruct x; [reflexivity | discriminate]. Qed.

(** The sum of [int] items is exact. *)
Lemma sum_from_ints (xs : list number) (acc : Z) :
  Forall (fun x => is_int x = true) xs ->
  sum_from (PyInt acc) xs = Ok (PyInt (acc + int_sum xs)).
Proof.
  intros H. revert acc. induction H as [|x xs Hx _ IH]; intros acc; simpl.
  - rewrite Z.add_0_r. reflexivity.
  - destruct x as [z|f]; [|discriminate]. simpl. rewrite IH. do 2 f_equal. lia.
Qed.

(** ** Validation of the partition specification *)

Section PartitionValidation.

Context {Row : Type}.

(** The conversion either leaves the specification as it is, or produces
    [int] sizes only. *)
Lemma convert_fractional_cases (dataset : object Row) (partitions sizes : dict number) :
  convert_fractional dataset partitions = Ok sizes ->
  sizes = partitions \/ Forall (fun x => is_int x = true) (dict_values sizes).
Proof.
  unfold convert_fractional. intros H. bind_inv H as total Htotal.
  destruct (py_le total (PyInt 1)); [right | left; injection H as <-; reflexivity].
  clear Htotal. revert sizes H.
  induction partitions as [|[k v] partitions IH]; simpl; intros sizes H.
  - injection H as <-. constructor.
  - bind_inv H as w Hw. bind_inv H as sizes' Hsizes'. injection H as <-.
    bind_inv Hw as n Hn. bind_inv Hw as product Hproduct. bind_inv Hw as size Hsize.
    injection Hw as <-. simpl. constructor; [reflexivity | apply IH; exact Hsizes'].
Qed.

(** The constructor on a dataset and a dictionary, up to the last
    assertion. *)
Lemma PartitionedDataset_init_checks (d : Dataset Row) (partitions : dict number) :
  exists rest,
    PartitionedDataset_init (PyDataset d) (PyDict partitions) =
    (py_assert (2 <=? Z.of_nat (List.length partitions)) ;;;
     smallest <- py_min (dict_values partitions) ;;
     py_assert (py_gt smallest (PyInt 0)) ;;;
     sizes <- convert_fractional (PyDataset d) partitions ;;
     for_each assert_integer_size (dict_values sizes) ;;;
     total <- py_sum (dict_values sizes) ;;
     py_assert (py_eq total (PyInt (ds_len d))) ;;;
     rest sizes).
Proof. eexists (fun sizes => _). reflexivity. Qed.

Lemma assert_integer_size_cases (x : number) :
  match assert_integer_size x with
  | Ok _ => integral x = true
  | Raise AssertionError => True
  | Raise ValueError | Raise OverflowError => finite_number x = false
  | Raise _ => False
  end.
Proof.
  destruct (finite_number x) eqn:Efin.
  - rewrite (assert_integer_size_finite x Efin).
    destruct (integral x); simpl; [reflexivity | exact I].
  - destruct x as [a|[s|s| |s m e]]; try discriminate; reflexivity.
Qed.

Lemma for_each_integer_cases (xs : list number) :
  match for_each assert_integer_size xs with
  | Ok _ => Forall (fun x => integral x = true) xs
  | Raise AssertionError => True
  | Raise ValueError | Raise OverflowError =>
      exists x, In x xs /\ finite_number x = false
  | Raise _ => False
  end.
Proof.
  induction xs as [|x xs IH]; simpl; [constructor|].
  pose proof (assert_integer_size_cases x) as Hx.
  destruct (assert_integer_size x) as [u|e]; simpl.
  - destruct (for_each assert_integer_size xs) as [u'|e'].
    + constructor; assumption.
    + destruct e'; try exact IH;
        destruct IH as (y & Hy & Hfin); exists y; split; [right| |right|]; assumption.
  - destruct e; try exact Hx; exists x; split; [left; reflexivity| |left; reflexivity|];
      assumption.
Qed.

Lemma convert_fractional_non_finite (dataset : object Row) (partitions sizes : dict number) :
  convert_fractional dataset partitions = Ok sizes ->
  (exists x, In x (dict_values sizes) /\ finite_number x = false) ->
  non_finite_size partitions.
Proof.
  intros H (x & Hin & Hfin).
  destruct (convert_fractional_cases _ _ _ H) as [->|Hint].
  - exists x. split; assumption.
  - rewrite Forall_forall in Hint. rewrite (is_int_finite x (Hint x Hin)) in Hfin.
    discriminate.
Qed.

(** What the validation of the constructor does refuse.  Construction
    raises [AssertionError], and so returns no view, whenever the
    specification defines fewer than two partitions or a supplied value is
    zero or negative.  Whenever the block that converts the fractions has
    left sizes of which one is not an integer, or which do not sum to
    [len(dataset)], construction raises as well: [AssertionError], unless
    a NaN or an infinity among the sizes makes [int(size)] raise
    [ValueError] or [OverflowError] first; so it is [AssertionError]
    whenever every size is a finite number.  Sizes of which the sum cannot
    be computed are not covered here, the conversion raising before any
    size is left. *)
Theorem partition_validation (d : Dataset Row) (partitions : dict number) :
  (supplied_too_few_or_nonpositive partitions ->
   PartitionedDataset_init (PyDataset d) (PyDict partitions) = Raise AssertionError) /\
  (bad_sizes d partitions ->
   PartitionedDataset_init (PyDataset d) (PyDict partitions) = Raise AssertionError \/
   (non_finite_size partitions /\
    (PartitionedDataset_init (PyDataset d) (PyDict partitions) = Raise ValueError \/
     PartitionedDataset_init (PyDataset d) (PyDict partitions) = Raise OverflowError))) /\
  (bad_sizes d partitions ->
   Forall (fun size => finite_number size = true) (dict_values partitions) ->
   PartitionedDataset_init (PyDataset d) (PyDict partitions) = Raise AssertionError).
Proof.
  destruct (PartitionedDataset_init_checks d partitions) as (rest & ->).
  assert (Hbasic : supplied_too_few_or_nonpositive partitions ->
    (py_assert (2 <=? Z.of_nat (List.length partitions)) ;;;
     smallest <- py_min (dict_values partitions) ;;
     py_assert (py_gt smallest (PyInt 0)) ;;;
     sizes <- convert_fractional (PyDataset d) partitions ;;
     for_each assert_integer_size (dict_values sizes) ;;;
     total <- py_sum (dict_values sizes) ;;
     py_assert (py_eq total (PyInt (ds_len d))) ;;;
     rest sizes) = Raise AssertionError).
  { intros Hbad.
    destruct (Z.leb_spec 2 (Z.of_nat (List.length partitions))) as [Htwo|Htwo];
      [|reflexivity].
    simpl. destruct Hbad as [Hfew | Hneg]; [lia|].
    destruct (py_min_nonpositive_item _ Hneg) as (m & -> & Hm).
    simpl. rewrite Hm. reflexivity. }
  assert (Hsizes : bad_sizes d partitions ->
    (py_assert (2 <=? Z.of_nat (List.length partitions)) ;;;
     smallest <- py_min (dict_values partitions) ;;
     py_assert (py_gt smallest (PyInt 0)) ;;;
     sizes <- convert_fractional (PyDataset d) partitions ;;
     for_each assert_integer_size (dict_values sizes) ;;;
     total <- py_sum (dict_values sizes) ;;
     py_assert (py_eq total (PyInt (ds_len d))) ;;;
     rest sizes) = Raise AssertionError \/
    (non_finite_size partitions /\
     ((py_assert (2 <=? Z.of_nat (List.length partitions)) ;;;
       smallest <- py_min (dict_values partitions) ;;
       py_assert (py_gt smallest (PyInt 0)) ;;;
       sizes <- convert_fractional (PyDataset d) partitions ;;
       for_each assert_integer_size (dict_values sizes) ;;;
       total <- py_sum (dict_values sizes) ;;
       py_assert (py_eq total (PyInt (ds_len d))) ;;;
       rest sizes) = Raise ValueError \/
      (py_assert (2 <=? Z.of_nat (List.length partitions)) ;;;
       smallest <- py_min (dict_values partitions) ;;
       py_assert (py_gt smallest (PyInt 0)) ;;;
       sizes <- convert_fractional (PyDataset d) partitions ;;
       for_each assert_integer_size (dict_values sizes) ;;;
       total <- py_sum (dict_values sizes) ;;
       py_assert (py_eq total (PyInt (ds_len d))) ;;;
       rest sizes) = Raise OverflowError))).
  { intros (sizes & Hconv & Hbad).
    destruct (Z.leb_spec 2 (Z.of_nat (List.length partitions))) as [Htwo|Htwo];
      [|left; reflexivity].
    simpl.
    destruct (py_min (dict_values partitions)) as [m|e] eqn:Emin.
    2:{ destruct partitions; simpl in *; [lia | discriminate]. }
    simpl. destruct (py_gt m (PyInt 0)); [|left; reflexivity].
    simpl. rewrite Hconv. simpl.
    pose proof (for_each_integer_cases (dict_values sizes)) as Hloop.
    destruct (for_each assert_integer_size (dict_values sizes)) as [u|e]; simpl.
    - left.
      destruct Hbad as [(size & Hin & Hsize) | [(Hint & Hsum) | (total & -> & Hneq)]].
      + rewrite Forall_forall in Hloop. rewrite (Hloop _ Hin) in Hsize. discriminate.
      + unfold py_sum. rewrite (sum_from_ints _ 0 Hint). simpl.
        unfold py_eq. simpl.
        destruct (Z.compare_spec (int_sum (dict_values sizes)) (ds_len d));
          [contradiction | reflexivity | reflexivity].
      + simpl. rewrite Hneq. reflexivity.
    - destruct e; try contradiction; [left; reflexivity | right | right];
        (split; [exact (convert_fractional_non_finite _ _ _ Hconv Hloop)|]);
        [left | right]; reflexivity. }
  split; [exact Hbasic|]. split; [exact Hsizes|].
  intros Hbad Hfin. destruct (Hsizes Hbad) as [H|((x & Hin & Hx) & _)]; [exact H|].
  rewrite Forall_forall in Hfin. rewrite (Hfin x Hin) in Hx. discriminate.
Qed.

End PartitionValidation.

(** ** The claims on concrete datasets *)

Lemma two_halves_view_init :
  PartitionedDataset_init (PyDataset rows4) (PyDict two_halves) = Ok two_halves_view.
Proof. reflexivity. Qed.

Lemma first_rest_view_init :
  PartitionedDataset_init (PyDataset rows4) (PyDict first_rest) = Ok first_rest_view.
Proof. reflexivity. Qed.

Lemma duplicated_view_init :
  ResampledDataset_init (PyDataset rows3) (PyNdarray duplicated) = Ok duplicated_view.
Proof. reflexivity. Qed.

(** C1 (evaluation of the code).  On a dataset of four rows split into
    [train] and [val] of two rows each, [train] is active after
    construction and is the first partition; [view[0]] reads
    [_partition_offsets[-1] = 4] as its offset and asks the dataset for row
    [4 + 0], which does not exist, where the first row of the partition is
    row 0 of the dataset. *)
Theorem first_partition_reads_past_end :
  PartitionedDataset_init (PyDataset rows4) (PyDict two_halves) = Ok two_halves_view /\
  active_partition two_halves_view = Ok "train"%string /\
  _active_partition_idx two_halves_view = Some 0 /\
  PartitionedDataset_len two_halves_view = Ok 2 /\
  py_getitem (_partition_offsets two_halves_view) (0 - 1) = Ok 4 /\
  PartitionedDataset_getitem two_halves_view 0 = ds_getitem rows4 (4 + 0) /\
  PartitionedDataset_getitem two_halves_view 0 = Raise IndexError /\
  ds_getitem rows4 0 = Ok 10.
Proof. repeat split; reflexivity. Qed.

(** C2, as stated, fails on negative indices: the view on [rows3] with the
    samples [[0, 0, 2]] answers [view[-1]] with row 2 of the dataset. *)
Lemma negative_index_not_rejected :
  ~ (forall v : ResampledDataset Z, rd_view v ->
     forall idx, idx < 0 -> ResampledDataset_getitem v idx = Raise IndexError).
Proof.
  intros H.
  specialize (H duplicated_view (rd_view_init _ _ _ duplicated_view_init) (-1) eq_refl).
  discriminate H.
Qed.

Lemma index_bounds_witness :
  (exists size, PartitionedDataset_len two_halves_view = Ok size /\
     forall idx, size <= idx ->
       PartitionedDataset_getitem two_halves_view idx = Raise IndexError) /\
  (exists n, ResampledDataset_len duplicated_view = Ok n /\
     (forall idx, n <= idx -> ResampledDataset_getitem duplicated_view idx = Raise IndexError) /\
     (forall idx, idx < - n -> ResampledDataset_getitem duplicated_view idx = Raise IndexError) /\
     (forall idx, - n <= idx < 0 ->
        ResampledDataset_getitem duplicated_view idx =
        ResampledDataset_getitem duplicated_view (idx + n))).
Proof.
  split.
  - apply (proj1 (@index_bounds Z)).
    apply (pd_view_init (PyDataset rows4) (PyDict two_halves)). reflexivity.
  - apply (proj2 (@index_bounds Z)).
    apply (rd_view_init (PyDataset rows3) (PyNdarray duplicated)). reflexivity.
Defined.



Lemma resample_translation_witness :
  (exists d s, wrapped (rd_super duplicated_view) = Ok d /\
     _samples duplicated_view = Some s /\
     ResampledDataset_len duplicated_view = Ok (Z.of_nat (List.length s)) /\
     forall i, 0 <= i < Z.of_nat (List.length s) ->
       exists sample, nth_error s (Z.to_nat i) = Some sample /\
                      ResampledDataset_getitem duplicated_view i = ds_getitem d sample) /\
  (exists v, ResampledDataset_init (PyDataset rows3) PyNone = Ok v /\
     _samples v = Some (arange (ds_len rows3)) /\
     ResampledDataset_len v = Ok (ds_len rows3) /\
     forall i, 0 <= i < ds_len rows3 -> ResampledDataset_getitem v i = ds_getitem rows3 i).
Proof.
  split.
  - apply (proj1 (@resample_translation Z)).
    apply (rd_view_init (PyDataset rows3) (PyNdarray duplicated)). reflexivity.
  - destruct (proj2 (proj2 (@resample_translation Z)) rows3) as (v & Hv);
      [simpl; lia|].
    exists v. split; [exact Hv|].
    apply (proj1 (proj2 (@resample_translation Z))). exact Hv.
Defined.

Lemma derived_views_locked_witness :
  (exists d, PyDataset rows4 = PyDataset d /\
     forall (ops : list pd_op) (obj : object Z),
       DatasetWrapper_dataset (pd_super (pd_run ops two_halves_view)) = Some d /\
       _lock_dataset (pd_super (pd_run ops two_halves_view)) = Some true /\
       call (PartitionedDataset_set_dataset obj) (pd_run ops two_halves_view) =
       (pd_run ops two_halves_view, Some AssertionError)) /\
  (exists d, PyDataset rows3 = PyDataset d /\
     forall (ops : list rd_op) (obj : object Z),
       DatasetWrapper_dataset (rd_super (rd_run ops duplicated_view)) = Some d /\
       _lock_dataset (rd_super (rd_run ops duplicated_view)) = Some true /\
       call (ResampledDataset_set_dataset obj) (rd_run ops duplicated_view) =
       (rd_run ops duplicated_view, Some AssertionError)).
Proof.
  split.
  - apply (proj1 (@derived_views_locked Z) _ (PyDict two_halves)). reflexivity.
  - apply (proj2 (@derived_views_locked Z) _ (PyNdarray duplicated)). reflexivity.
Defined.

Lemma default_partitioning_witness :
  active_partition two_halves_view = Ok "train"%string /\
  (exists first, nth_error (_partition_names first_rest_view) 0 = Some first /\
                 active_partition first_rest_view = Ok first).
Proof.
  split.
  - apply (proj2 (@default_partitioning Z) (PyDataset rows4) (PyDict two_halves)).
    + reflexivity.
    + simpl. tauto.
  - apply (proj2 (@default_partitioning Z) (PyDataset rows4) (PyDict first_rest)).
    + reflexivity.
    + simpl. intros [H|[H|H]]; [discriminate H | discriminate H | exact H].
Defined.

(** A size that is not a number does not end in [AssertionError]: with the
    sizes [{train: 1, val: nan}] the minimum is 1, the sum is NaN, which is
    not [<= 1], so nothing is converted, and [int(nan)] raises
    [ValueError]. *)
Lemma nan_size_raises_ValueError :
  ~ (forall (d : Dataset Z) (partitions sizes : dict number),
       convert_fractional (PyDataset d) partitions = Ok sizes ->
       (exists size, In size (dict_values sizes) /\ integral size = false) ->
       PartitionedDataset_init (PyDataset d) (PyDict partitions) = Raise AssertionError).
Proof.
  intros H.
  specialize (H rows4 [("train"%string, PyInt 1); ("val"%string, PyFloat S754_nan)]
                [("train"%string, PyInt 1); ("val"%string, PyFloat S754_nan)] eq_refl).
  assert (Hnan : exists size,
             In size (dict_values [("train"%string, PyInt 1); ("val"%string, PyFloat S754_nan)]) /\
             integral size = false).
  { exists (PyFloat S754_nan). split; [simpl; tauto | reflexivity]. }
  specialize (H Hnan). vm_compute in H. discriminate H.
Qed.

(** Nor does a finite size too large for a float: with the sizes
    [{train: 10 ** 400, val: 0.5}] the minimum is 0.5, and [sum] raises
    [OverflowError] on converting the [int] for the addition of 0.5. *)
Lemma huge_size_raises_OverflowError :
  PartitionedDataset_init (PyDataset rows4)
    (PyDict [("train"%string, PyInt (10 ^ 400)); ("val"%string, f0_5)])
  = Raise OverflowError.
Proof. vm_compute. reflexivity. Qed.

Lemma partition_validation_witness :
  PartitionedDataset_init (PyDataset rows4) (PyDict [("train"%string, PyInt 4)])
  = Raise AssertionError /\
  PartitionedDataset_init (PyDataset rows4)
    (PyDict [("train"%string, PyInt 4); ("val"%string, PyInt 0)])
  = Raise AssertionError /\
  PartitionedDataset_init (PyDataset rows4)
    (PyDict [("train"%string, f1_5); ("val"%string, f2_5)])
  = Raise AssertionError /\
  PartitionedDataset_init (PyDataset rows4)
    (PyDict [("train"%string, PyInt 2); ("val"%string, PyInt 3)])
  = Raise AssertionError /\
  PartitionedDataset_init (PyDataset rows3)
    (PyDict [("train"%string, f0_5); ("val"%string, f0_5)])
  = Raise AssertionError.
Proof.
  split; [|split; [|split; [|split]]].
  - apply (proj1 (partition_validation rows4 _)). left. simpl. lia.
  - apply (proj1 (partition_validation rows4 _)). right.
    exists (PyInt 0). split; [simpl; tauto | reflexivity].
  - apply (proj2 (proj2 (partition_validation rows4 _))); [|repeat constructor].
    eexists. split; [vm_compute; reflexivity|].
    left. exists f1_5. split; [simpl; tauto | reflexivity].
  - apply (proj2 (proj2 (partition_validation rows4 _))); [|repeat constructor].
    eexists. split; [vm_compute; reflexivity|].
    right. left. split; [repeat constructor | simpl; lia].
  - apply (proj2 (proj2 (partition_validation rows3 _))); [|repeat constructor].
    eexists. split; [vm_compute; reflexivity|].
    right. left. split; [repeat constructor | simpl; lia].
Defined.

(** * Further properties of the views *)

(** ** The structure of a [PartitionedDataset] *)

Lemma skipn_nth_error_cons {A : Type} (l : list A) (k : nat) (x : A) :
  nth_error l k = Some x -> skipn k l = x :: skipn (S k) l.
Proof.
  revert l. induction k as [|k IH]; intros [|y l] H; simpl in H; try discriminate.
  - injection H as ->. reflexivity.
  - change (skipn k l = x :: skipn (S k) l). apply IH. exact H.
Qed.

Lemma partitions_comprehension (sizes : list Z) (names : list string) (k : nat) :
  (k + List.length names = List.length sizes)%nat ->
  comprehension
    (fun '(i, name) => size <- py_getitem sizes (Z.of_nat i) ;; Ok (name, size))
    (combine (seq k (List.length names)) names)
  = Ok (combine names (skipn k sizes)).
Proof.
  revert k. induction names as [|name names IH]; intros k Hlen.
  - reflexivity.
  - simpl in Hlen.
    destruct (py_getitem_in_range sizes (Z.of_nat k)) as (size & Hnth & Hget); [lia|].
    rewrite Nat2Z.id in Hnth.
    rewrite (skipn_nth_error_cons _ _ _ Hnth).
    change (comprehension
              (fun '(i, name) => size <- py_getitem sizes (Z.of_nat i) ;; Ok (name, size))
              (combine (seq k (List.length (name :: names))) (name :: names)))
      with (bind (size <- py_getitem sizes (Z.of_nat k) ;; Ok (name, size))
              (fun y => bind (comprehension
                (fun '(i, name) => size <- py_getitem sizes (Z.of_nat i) ;; Ok (name, size))
                (combine (seq (S k) (List.length names)) names))
                (fun ys => Ok (y :: ys)))).
    rewrite Hget, IH by lia. reflexivity.
Qed.

Section PartitionStructure.

Context {Row : Type}.

Lemma partitions_of_view (d : Dataset Row) (v : PartitionedDataset Row) :
  pd_inv d v ->
  PartitionedDataset_partitions v = Ok (combine (_partition_names v) (_partition_sizes v)).
Proof.
  intros Hinv. unfold PartitionedDataset_partitions.
  rewrite (partitions_comprehension (_partition_sizes v) (_partition_names v) 0).
  - reflexivity.
  - rewrite (pd_inv_aligned _ _ Hinv). reflexivity.
Qed.

Lemma pd_method_structure (op : pd_op) (d : Dataset Row) (v : PartitionedDataset Row) :
  pd_inv d v ->
  _partition_names (fst (call (pd_method op) v)) = _partition_names v /\
  _partition_sizes (fst (call (pd_method op) v)) = _partition_sizes v /\
  _partition_offsets (fst (call (pd_method op) v)) = _partition_offsets v.
Proof.
  intros Hinv. unfold call.
  destruct (pd_method op v) as [v'|e] eqn:E; simpl; [|repeat split].
  destruct op; simpl in E;
    try (destruct (set_active_partition_Ok_inv _ _ _ E) as (k & _ & _ & ->);
         repeat split).
  rewrite (PartitionedDataset_set_dataset_locked d) in E by assumption. discriminate.
Qed.

Lemma pd_run_structure (d : Dataset Row) (ops : list pd_op) (v : PartitionedDataset Row) :
  pd_inv d v ->
  pd_inv d (pd_run ops v) /\
  _partition_names (pd_run ops v) = _partition_names v /\
  _partition_sizes (pd_run ops v) = _partition_sizes v /\
  _partition_offsets (pd_run ops v) = _partition_offsets v.
Proof.
  revert v. induction ops as [|op ops IH]; intros v Hinv; simpl.
  - split; [exact Hinv|]. split; [reflexivity|]. split; reflexivity.
  - destruct (pd_method_structure op d v Hinv) as (Hn & Hs & Ho).
    destruct (IH _ (pd_method_inv d op v Hinv)) as (Hinv' & Hn' & Hs' & Ho').
    split; [exact Hinv'|]. split; [congruence|]. split; congruence.
Qed.

(** The partition structure is fixed at construction: whatever calls are
    made on a view, its names, sizes and offsets stay those the constructor
    computed, and the [partitions] property returns the sizes by name, in
    the order of the names. *)
Theorem partition_structure_fixed (dataset partitions : object Row) (v : PartitionedDataset Row) :
  PartitionedDataset_init dataset partitions = Ok v ->
  forall ops : list pd_op,
    _partition_names (pd_run ops v) = _partition_names v /\
    _partition_sizes (pd_run ops v) = _partition_sizes v /\
    _partition_offsets (pd_run ops v) = cumsum (_partition_sizes v) /\
    List.length (_partition_sizes v) = List.length (_partition_names v) /\
    PartitionedDataset_partitions (pd_run ops v)
    = Ok (combine (_partition_names v) (_partition_sizes v)).
Proof.
  intros H ops.
  destruct (PartitionedDataset_init_inv _ _ _ H) as (d & _ & Hinv).
  destruct (pd_run_structure d ops v Hinv) as (Hinv' & Hn & Hs & Ho).
  split; [exact Hn|]. split; [exact Hs|].
  split; [rewrite Ho; apply (pd_inv_offsets _ _ Hinv)|].
  split; [apply (pd_inv_aligned _ _ Hinv)|].
  rewrite (partitions_of_view d _ Hinv'). rewrite Hn, Hs. reflexivity.
Qed.

(** [set_active_partition]: with the name of a partition it makes the
    first partition of that name the active one, after which
    [active_partition] is that name and [len] the size at its position,
    the rest of the view being unchanged; with any other name it raises
    [AssertionError] and the view is left as it was. *)
Theorem set_active_partition_roundtrip (v : PartitionedDataset Row) (p : string) :
  pd_view v ->
  (In p (_partition_names v) ->
   exists v' k size,
     call (set_active_partition p) v = (v', None) /\
     nth_error (_partition_names v) k = Some p /\
     (forall j, (j < k)%nat -> nth_error (_partition_names v) j <> Some p) /\
     nth_error (_partition_sizes v) k = Some size /\
     active_partition v' = Ok p /\
     PartitionedDataset_len v' = Ok size /\
     v' = {| pd_super := pd_super v;
             _partition_names := _partition_names v;
             _partition_sizes := _partition_sizes v;
             _partition_offsets := _partition_offsets v;
             _active_partition_idx := Some (Z.of_nat k) |}) /\
  (~ In p (_partition_names v) ->
   call (set_active_partition p) v = (v, Some AssertionError)).
Proof.
  intros Hv. destruct (pd_view_inv _ Hv) as (d & Hinv). split.
  - intros Hin. destruct (set_active_partition_total p v Hin) as (v' & Hset).
    destruct (set_active_partition_Ok_inv _ _ _ Hset) as (k & Hk & Hfirst & Hv').
    assert (Hlt : (k < List.length (_partition_sizes v))%nat).
    { rewrite (pd_inv_aligned _ _ Hinv). apply nth_error_Some. rewrite Hk. discriminate. }
    destruct (py_getitem_in_range (_partition_sizes v) (Z.of_nat k)) as (size & Hnth & Hsize);
      [lia|].
    rewrite Nat2Z.id in Hnth.
    exists v', k, size.
    split; [apply call_Ok; exact Hset|]. split; [exact Hk|]. split; [exact Hfirst|].
    split; [exact Hnth|].
    split; [apply (active_partition_after_set _ _ _ Hset)|].
    split; [|exact Hv'].
    rewrite Hv'. unfold PartitionedDataset_len. simpl. exact Hsize.
  - intros Hnot. apply call_Raise. apply set_active_partition_missing. exact Hnot.
Qed.

(** [__getitem__] with a partition after the first active: for every
    index below the size of the partition, negative ones included,
    [view[idx]] is the row of the dataset at the start offset of the
    partition plus the index. *)
Theorem later_partition_translation (v : PartitionedDataset Row) (k : nat) :
  pd_view v ->
  _active_partition_idx v = Some (Z.of_nat (S k)) ->
  exists d size,
    wrapped (pd_super v) = Ok d /\
    nth_error (_partition_sizes v) (S k) = Some size /\
    forall idx, idx < size ->
      PartitionedDataset_getitem v idx =
      ds_getitem d (start_offset (_partition_sizes v) (S k) + idx).
Proof.
  intros Hv Hact.
  destruct (partition_getitem_offset v Hv) as (d & k' & size & Hd & Hk' & Hnth & Hget).
  assert (Hkk : Z.of_nat (S k) = Z.of_nat k') by congruence.
  apply Nat2Z.inj in Hkk. subst k'.
  exists d, size. split; [exact Hd|]. split; [exact Hnth|]. exact Hget.
Qed.

(** [__getitem__] with the first partition active: for every index below
    the size of the partition, [view[idx]] is the row of the dataset at
    the sum of all the partition sizes plus the index. *)
Theorem first_partition_offset (v : PartitionedDataset Row) :
  pd_view v ->
  _active_partition_idx v = Some 0 ->
  exists d size,
    wrapped (pd_super v) = Ok d /\
    nth_error (_partition_sizes v) 0 = Some size /\
    forall idx, idx < size ->
      PartitionedDataset_getitem v idx =
      ds_getitem d (fold_right Z.add 0 (_partition_sizes v) + idx).
Proof.
  intros Hv Hact.
  destruct (partition_getitem_offset v Hv) as (d & k' & size & Hd & Hk' & Hnth & Hget).
  assert (Hkk : 0 = Z.of_nat k') by congruence.
  assert (k' = 0%nat) by lia. subst k'.
  exists d, size. split; [exact Hd|]. split; [exact Hnth|].
  intros idx Hidx. rewrite (Hget idx Hidx).
  unfold start_offset. rewrite firstn_all. reflexivity.
Qed.

End PartitionStructure.

(** ** Integer partition specifications *)

Lemma int_dict_values (spec : dict Z) :
  dict_values (int_dict spec) = map PyInt (dict_values spec).
Proof.
  unfold dict_values, int_dict. rewrite !map_map.
  apply map_ext. intros [name size]. reflexivity.
Qed.

Lemma int_dict_keys (spec : dict Z) : dict_keys (int_dict spec) = dict_keys spec.
Proof.
  unfold dict_keys, int_dict. rewrite map_map.
  apply map_ext. intros [name size]. reflexivity.
Qed.

Lemma min_fold_ints (xs : list Z) (c : Z) :
  fold_left (fun cur y => if py_lt y cur then y else cur) (map PyInt xs) (PyInt c)
  = PyInt (fold_left Z.min xs c).
Proof.
  revert c. induction xs as [|x xs IH]; intros c; simpl; [reflexivity|].
  unfold py_lt at 2. simpl.
  destruct (Z.compare_spec x c) as [Heq|Hlt|Hgt].
  - rewrite IH. f_equal. f_equal. lia.
  - rewrite IH. f_equal. f_equal. lia.
  - rewrite IH. f_equal. f_equal. lia.
Qed.

Lemma py_min_ints (xs : list Z) :
  py_min (map PyInt xs) =
  match xs with
  | [] => Raise ValueError
  | x :: xs' => Ok (PyInt (fold_left Z.min xs' x))
  end.
Proof.
  destruct xs as [|x xs]; simpl; [reflexivity|]. rewrite min_fold_ints. reflexivity.
Qed.

Lemma fold_min_positive (xs : list Z) (c : Z) :
  (0 <? fold_left Z.min xs c) = (0 <? c) && forallb (fun z => 0 <? z) xs.
Proof.
  revert c. induction xs as [|x xs IH]; intros c; simpl.
  - rewrite andb_true_r. reflexivity.
  - rewrite IH. rewrite andb_assoc. f_equal.
    destruct (Z.ltb_spec 0 (Z.min c x)), (Z.ltb_spec 0 c), (Z.ltb_spec 0 x);
      simpl; try reflexivity; lia.
Qed.

Lemma py_sum_ints (xs : list Z) :
  py_sum (map PyInt xs) = Ok (PyInt (fold_right Z.add 0 xs)).
Proof.
  unfold py_sum. rewrite (sum_from_ints (map PyInt xs) 0).
  - do 2 f_equal. simpl. induction xs as [|x xs IH]; simpl; [reflexivity|].
    f_equal. exact IH.
  - apply Forall_forall. intros x Hx. apply in_map_iff in Hx.
    destruct Hx as (z & <- & _). reflexivity.
Qed.

Lemma for_each_integer_ints (xs : list Z) :
  for_each assert_integer_size (map PyInt xs) = Ok tt.
Proof.
  induction xs as [|x xs IH]; simpl; [reflexivity|].
  unfold assert_integer_size at 1. simpl. unfold py_eq. simpl.
  rewrite Z.compare_refl. simpl. exact IH.
Qed.

Lemma positive_sum_bound (xs : list Z) :
  forallb (fun z => 0 <? z) xs = true ->
  Z.of_nat (List.length xs) <= fold_right Z.add 0 xs.
Proof.
  induction xs as [|x xs IH]; simpl; intros H; [lia|].
  apply andb_true_iff in H. destruct H as (Hx & Hxs).
  apply Z.ltb_lt in Hx. specialize (IH Hxs). lia.
Qed.

Lemma dict_getitem_fresh {V : Type} (d : dict V) (k : string) (v : V) (k' : string) :
  k <> k' -> dict_getitem ((k, v) :: d) k' = dict_getitem d k'.
Proof.
  intros Hne. simpl. destruct (String.eqb k k') eqn:E; [|reflexivity].
  apply String.eqb_eq in E. contradiction.
Qed.

Lemma comprehension_cons {A B : Type} (f : A -> result B) (x : A) (xs : list A) :
  comprehension f (x :: xs) =
  (y <- f x ;; ys <- comprehension f xs ;; Ok (y :: ys)).
Proof. reflexivity. Qed.

(** In a dictionary, looking up the keys in order gives the values in
    order. *)
Lemma lookup_keys_ints (spec : dict Z) :
  NoDup (dict_keys spec) ->
  comprehension
    (fun name => size <- dict_getitem (int_dict spec) name ;; py_int size)
    (dict_keys spec)
  = Ok (dict_values spec).
Proof.
  induction spec as [|[k z] spec IH]; intros Hnd; [reflexivity|].
  inversion Hnd as [|k0 ks Hnotin Hnd']; subst.
  change (dict_keys ((k, z) :: spec)) with (k :: dict_keys spec).
  change (int_dict ((k, z) :: spec)) with ((k, PyInt z) :: int_dict spec).
  change (dict_values ((k, z) :: spec)) with (z :: dict_values spec).
  rewrite comprehension_cons.
  assert (Hrest : comprehension
            (fun name => size <- dict_getitem ((k, PyInt z) :: int_dict spec) name ;;
                         py_int size) (dict_keys spec)
          = comprehension
              (fun name => size <- dict_getitem (int_dict spec) name ;; py_int size)
              (dict_keys spec)).
  { clear IH Hnd Hnd'. revert Hnotin.
    generalize (dict_keys spec) as names.
    induction names as [|name names IHn]; intros Hnotin; [reflexivity|].
    rewrite !comprehension_cons.
    rewrite dict_getitem_fresh by (intros ->; apply Hnotin; left; reflexivity).
    rewrite IHn by (intros Hin; apply Hnotin; right; exact Hin).
    reflexivity. }
  rewrite Hrest, (IH Hnd').
  unfold dict_getitem. rewrite String.eqb_refl. reflexivity.
Qed.

Section IntegerPartitions.

Context {Row : Type}.

(** The constructor on a dictionary of [int] sizes, evaluated: the three
    checks, then the activation of [train] or of the first partition. *)
Lemma PartitionedDataset_init_ints (d : Dataset Row) (spec : dict Z) :
  NoDup (dict_keys spec) ->
  PartitionedDataset_init (PyDataset d) (PyDict (int_dict spec)) =
  if (2 <=? Z.of_nat (List.length spec))
     && forallb (fun z => 0 <? z) (dict_values spec)
     && (fold_right Z.add 0 (dict_values spec) =? ds_len d)
  then
    let self := {| pd_super := {| _dataset := Some d; _lock_dataset := Some true |};
                   _partition_names := dict_keys spec;
                   _partition_sizes := dict_values spec;
                   _partition_offsets := cumsum (dict_values spec);
                   _active_partition_idx := None |} in
    if py_contains (dict_keys spec) "train"%string then
      set_active_partition "train"%string self
    else
      first <- py_getitem (dict_keys spec) 0 ;;
      set_active_partition first self
  else Raise AssertionError.
Proof.
  intros Hnd. unfold PartitionedDataset_init.
  rewrite DatasetWrapper_init_dataset.
  cbn [bind].
  assert (Hlen : List.length (int_dict spec) = List.length spec)
    by (unfold int_dict; apply length_map).
  rewrite Hlen.
  destruct (Z.leb_spec 2 (Z.of_nat (List.length spec))) as [Htwo|Htwo];
    [|reflexivity].
  cbn [py_assert bind andb].
  rewrite int_dict_values, py_min_ints.
  destruct (dict_values spec) as [|x xs] eqn:Evals.
  { apply (f_equal (@List.length Z)) in Evals. unfold dict_values in Evals.
    rewrite length_map in Evals. simpl in Evals. lia. }
  cbn [bind]. unfold py_gt at 1. cbn [py_compare].
  assert (Hpos : match 0 ?= fold_left Z.min xs x with Lt => true | _ => false end
                 = forallb (fun z => 0 <? z) (x :: xs)).
  { simpl forallb. rewrite <- fold_min_positive. unfold Z.ltb.
    destruct (0 ?= fold_left Z.min xs x); reflexivity. }
  rewrite Z.compare_antisym.
  replace (match CompOpp (0 ?= fold_left Z.min xs x) with Gt => true | _ => false end)
    with (forallb (fun z => 0 <? z) (x :: xs))
    by (rewrite <- Hpos; destruct (0 ?= fold_left Z.min xs x); reflexivity).
  destruct (forallb (fun z => 0 <? z) (x :: xs)) eqn:Eall; [|reflexivity].
  cbn [py_assert bind andb].
  pose proof (positive_sum_bound _ Eall) as Hbound.
  assert (Hlen2 : List.length (x :: xs) = List.length spec).
  { rewrite <- Evals. unfold dict_values. apply length_map. }
  rewrite Hlen2 in Hbound.
  unfold convert_fractional. rewrite int_dict_values, Evals, py_sum_ints.
  cbn [bind]. unfold py_le. cbn [py_compare].
  destruct (Z.compare_spec (fold_right Z.add 0 (x :: xs)) 1) as [He|Hl|Hg]; try lia.
  cbn [bind]. rewrite int_dict_values, Evals, for_each_integer_ints, py_sum_ints.
  cbn [bind py_len]. unfold py_eq. cbn [py_compare].
  rewrite <- Evals in *.
  destruct (Z.eqb_spec (fold_right Z.add 0 (dict_values spec)) (ds_len d)) as [Hsum|Hsum].
  - rewrite Hsum, Z.compare_refl. cbn [py_assert bind].
    rewrite int_dict_keys, (lookup_keys_ints spec Hnd). cbn [bind].
    reflexivity.
  - destruct (Z.compare_spec (fold_right Z.add 0 (dict_values spec)) (ds_len d));
      [contradiction | reflexivity | reflexivity].
Qed.

End IntegerPartitions.

Lemma combine_keys_values {V : Type} (d : dict V) :
  combine (dict_keys d) (dict_values d) = d.
Proof.
  induction d as [|[k v] d IH]; simpl; [reflexivity|]. f_equal. exact IH.
Qed.

Lemma forallb_positive (xs : list Z) :
  forallb (fun z => 0 <? z) xs = true <-> Forall (fun size => 0 < size) xs.
Proof.
  rewrite forallb_forall, Forall_forall.
  split; intros H x Hx; specialize (H x Hx); apply Z.ltb_lt; exact H.
Qed.

Section IntegerPartitionsAccepted.

Context {Row : Type}.

Lemma activation_total (self : PartitionedDataset Row) :
  _partition_names self <> [] ->
  exists v,
    (if py_contains (_partition_names self) "train"%string then
       set_active_partition "train"%string self
     else
       first <- py_getitem (_partition_names self) 0 ;;
       set_active_partition first self) = Ok v.
Proof.
  intros Hne.
  destruct (py_contains (_partition_names self) "train"%string) eqn:E.
  - apply set_active_partition_total. apply py_contains_In. exact E.
  - destruct (_partition_names self) as [|name names] eqn:En; [contradiction|].
    assert (Hfirst : py_getitem (name :: names) 0 = Ok name) by reflexivity.
    rewrite Hfirst. simpl.
    apply set_active_partition_total. rewrite En. left. reflexivity.
Qed.

Lemma activation_structure (self v : PartitionedDataset Row) :
  (if py_contains (_partition_names self) "train"%string then
     set_active_partition "train"%string self
   else
     first <- py_getitem (_partition_names self) 0 ;;
     set_active_partition first self) = Ok v ->
  pd_super v = pd_super self /\
  _partition_names v = _partition_names self /\
  _partition_sizes v = _partition_sizes self /\
  _partition_offsets v = _partition_offsets self.
Proof.
  intros H.
  destruct (py_contains (_partition_names self) "train"%string).
  - destruct (set_active_partition_Ok_inv _ _ _ H) as (k & _ & _ & ->).
    repeat split.
  - bind_inv H as first Hfirst.
    destruct (set_active_partition_Ok_inv _ _ _ H) as (k & _ & _ & ->).
    repeat split.
Qed.

(** An integer partition specification is accepted exactly when it has
    at least two partitions, every size is positive and the sizes sum to
    [len(dataset)]; otherwise the constructor raises [AssertionError].
    When it is accepted, the names and sizes of the view are the keys and
    values of the specification, in order; the [partitions] property gives
    the specification back, and so does [c_args], together with the
    dataset, whatever partition has been made active since. *)
Theorem integer_partitions_accepted (d : Dataset Row) (spec : dict Z) :
  NoDup (dict_keys spec) ->
  ((2 <= List.length spec)%nat /\
   Forall (fun size => 0 < size) (dict_values spec) /\
   fold_right Z.add 0 (dict_values spec) = ds_len d ->
   exists v, PartitionedDataset_init (PyDataset d) (PyDict (int_dict spec)) = Ok v) /\
  (~ ((2 <= List.length spec)%nat /\
      Forall (fun size => 0 < size) (dict_values spec) /\
      fold_right Z.add 0 (dict_values spec) = ds_len d) ->
   PartitionedDataset_init (PyDataset d) (PyDict (int_dict spec)) = Raise AssertionError) /\
  (forall v, PartitionedDataset_init (PyDataset d) (PyDict (int_dict spec)) = Ok v ->
     _partition_names v = dict_keys spec /\
     _partition_sizes v = dict_values spec /\
     forall ops : list pd_op,
       PartitionedDataset_partitions (pd_run ops v) = Ok spec /\
       PartitionedDataset_c_args (pd_run ops v)
       = Ok [("dataset"%string, PyDataset d);
             ("partitions"%string, PyDict (int_dict spec))]).
Proof.
  intros Hnd. rewrite (PartitionedDataset_init_ints d spec Hnd). cbv zeta.
  pose (self := {| pd_super := {| _dataset := Some d; _lock_dataset := Some true |};
                   _partition_names := dict_keys spec;
                   _partition_sizes := dict_values spec;
                   _partition_offsets := cumsum (dict_values spec);
                   _active_partition_idx := @None Z |}).
  destruct ((2 <=? Z.of_nat (List.length spec))
            && forallb (fun z => 0 <? z) (dict_values spec)
            && (fold_right Z.add 0 (dict_values spec) =? ds_len d)) eqn:Echecks.
  - apply andb_true_iff in Echecks. destruct Echecks as (Echecks & Esum).
    apply andb_true_iff in Echecks. destruct Echecks as (Etwo & Epos).
    apply Z.leb_le in Etwo. apply Z.eqb_eq in Esum. apply forallb_positive in Epos.
    split; [|split].
    + intros _. apply (activation_total self). simpl.
      destruct spec; simpl in *; [lia | discriminate].
    + intros Hnot. exfalso. apply Hnot. repeat split; [lia | exact Epos | exact Esum].
    + intros v Hv.
      destruct (activation_structure self _ Hv) as (Hsuper & Hn & Hs & Ho).
      simpl in Hsuper, Hn, Hs, Ho.
      split; [exact Hn|]. split; [exact Hs|]. intros ops.
      assert (Hinit : PartitionedDataset_init (PyDataset d) (PyDict (int_dict spec)) = Ok v).
      { rewrite (PartitionedDataset_init_ints d spec Hnd). cbv zeta.
        replace ((2 <=? Z.of_nat (List.length spec))
                 && forallb (fun z => 0 <? z) (dict_values spec)
                 && (fold_right Z.add 0 (dict_values spec) =? ds_len d)) with true.
        - exact Hv.
        - symmetry. rewrite !andb_true_iff. repeat split;
            [apply Z.leb_le; lia | apply forallb_positive; exact Epos
            | apply Z.eqb_eq; exact Esum]. }
      destruct (PartitionedDataset_init_inv _ _ _ Hinit) as (d' & [= <-] & Hinv).
      destruct (pd_run_structure d ops v Hinv) as (Hinv' & Hn' & Hs' & _).
      assert (Hparts : PartitionedDataset_partitions (pd_run ops v) = Ok spec).
      { rewrite (partitions_of_view d _ Hinv'). rewrite Hn', Hs', Hn, Hs.
        rewrite combine_keys_values. reflexivity. }
      split; [exact Hparts|].
      unfold PartitionedDataset_c_args. rewrite Hparts. simpl.
      unfold DatasetWrapper_dataset. rewrite (pd_inv_dataset _ _ Hinv'). reflexivity.
  - split; [|split].
    + intros (Htwo & Hpos & Hsum). exfalso.
      apply forallb_positive in Hpos. apply Z.eqb_eq in Hsum.
      assert (Etwo : (2 <=? Z.of_nat (List.length spec)) = true) by (apply Z.leb_le; lia).
      rewrite Etwo, Hpos, Hsum in Echecks. discriminate.
    + intros _. reflexivity.
    + intros v Hv. discriminate.
Qed.

End IntegerPartitionsAccepted.

(** ** Coverage of the dataset by the partitions *)

Lemma ints_as_int_dict (sizes : dict number) :
  Forall (fun x => is_int x = true) (dict_values sizes) ->
  exists spec : dict Z, sizes = int_dict spec.
Proof.
  induction sizes as [|[k x] sizes IH]; intros H.
  - exists []. reflexivity.
  - inversion H as [|x0 xs Hx Hxs]; subst.
    destruct (IH Hxs) as (spec & ->).
    destruct x as [z|f]; [|discriminate].
    exists ((k, z) :: spec). reflexivity.
Qed.

Lemma cumsum_from_offsets (sizes : list Z) (k : nat) (size : Z) :
  nth_error sizes k = Some size ->
  nth_error (cumsum sizes) k = Some (start_offset sizes k + size).
Proof.
  intros Hnth.
  assert (Hlt : (k < List.length sizes)%nat)
    by (apply nth_error_Some; rewrite Hnth; discriminate).
  unfold cumsum. rewrite cumsum_from_nth by exact Hlt.
  f_equal. unfold start_offset. rewrite Z.add_0_l.
  clear Hlt. revert k Hnth. induction sizes as [|x sizes IH]; intros k Hnth.
  - destruct k; discriminate.
  - destruct k as [|k].
    + injection Hnth as ->. destruct sizes; simpl; lia.
    + change (x + fold_right Z.add 0 (firstn (S k) sizes)
              = x + fold_right Z.add 0 (firstn k sizes) + size).
      rewrite (IH k Hnth). lia.
Qed.

Section PartitionCoverage.

Context {Row : Type}.

Lemma dict_comprehension_keys {V W : Type} (f : V -> result W) (d : dict V) (d' : dict W) :
  dict_comprehension f d = Ok d' -> dict_keys d' = dict_keys d.
Proof.
  revert d'. induction d as [|[k v] d IH]; simpl; intros d' H.
  - injection H as <-. reflexivity.
  - bind_inv H as w Hw. bind_inv H as d'' Hd''. injection H as <-.
    simpl. f_equal. apply IH. exact Hd''.
Qed.

Lemma convert_fractional_keys (dataset : object Row) (partitions sizes : dict number) :
  convert_fractional dataset partitions = Ok sizes ->
  dict_keys sizes = dict_keys partitions.
Proof.
  unfold convert_fractional. intros H. bind_inv H as total Htotal.
  destruct (py_le total (PyInt 1)).
  - apply (dict_comprehension_keys _ _ _ H).
  - injection H as <-. reflexivity.
Qed.

Lemma convert_fractional_ints (dataset : object Row) (partitions sizes : dict number) :
  convert_fractional dataset partitions = Ok sizes ->
  Forall (fun x => is_int x = true) (dict_values partitions) \/
  (exists total, py_sum (dict_values partitions) = Ok total /\
                 py_le total (PyInt 1) = true) ->
  Forall (fun x => is_int x = true) (dict_values sizes).
Proof.
  intros H Hspec.
  destruct (convert_fractional_cases _ _ _ H) as [->|Hint]; [|exact Hint].
  destruct Hspec as [Hint | (total & Htotal & Hle)]; [exact Hint|].
  unfold convert_fractional in H. rewrite Htotal in H. simpl in H.
  rewrite Hle in H.
  assert (Hgen : forall (d d' : dict number),
             dict_comprehension
               (fun fraction =>
                  n <- py_len dataset ;;
                  product <- py_mul fraction (PyInt n) ;;
                  size <- py_round product ;;
                  Ok (PyInt size)) d = Ok d' ->
             Forall (fun x => is_int x = true) (dict_values d')).
  { induction d as [|[k v] d IH]; simpl; intros d' Hd.
    - injection Hd as <-. constructor.
    - bind_inv Hd as w Hw. bind_inv Hd as d'' Hd''. injection Hd as <-.
      bind_inv Hw as n Hn. bind_inv Hw as product Hproduct. bind_inv Hw as size Hsize.
      injection Hw as <-. simpl. constructor; [reflexivity | apply IH; exact Hd'']. }
  apply (Hgen _ _ H).
Qed.

(** What a successful construction on a dictionary has gone through. *)
Lemma PartitionedDataset_init_Ok_dict
      (d : Dataset Row) (partitions : dict number) (v : PartitionedDataset Row) :
  PartitionedDataset_init (PyDataset d) (PyDict partitions) = Ok v ->
  exists sizes total,
    convert_fractional (PyDataset d) partitions = Ok sizes /\
    py_sum (dict_values sizes) = Ok total /\
    py_eq total (PyInt (ds_len d)) = true /\
    comprehension (fun name => size <- dict_getitem sizes name ;; py_int size)
                  (dict_keys sizes) = Ok (_partition_sizes v) /\
    _partition_names v = dict_keys sizes /\
    _partition_offsets v = cumsum (_partition_sizes v).
Proof.
  unfold PartitionedDataset_init. intros H.
  bind_inv H as super Hsuper. bind_inv H as parts0 Hparts0.
  injection Hparts0 as <-.
  bind_inv H as u1 Htwo. bind_inv H as smallest Hmin. bind_inv H as u2 Hpos.
  bind_inv H as sizes Hsizes. bind_inv H as u3 Hint. bind_inv H as total Htotal.
  bind_inv H as n Hn. injection Hn as <-.
  bind_inv H as u4 Hsum. apply py_assert_Ok_inv in Hsum.
  bind_inv H as isizes Hisizes.
  exists sizes, total.
  split; [exact Hsizes|]. split; [exact Htotal|]. split; [exact Hsum|].
  destruct (activation_structure _ _ H) as (_ & Hn & Hs & Ho).
  simpl in Hn, Hs, Ho. rewrite Hs, Hn, Ho. repeat split. exact Hisizes.
Qed.

(** The partitions cover the dataset.  For a view constructed from a
    dictionary of [int] sizes, or of fractions summing to at most 1, the
    sizes of the partitions sum exactly to [len(dataset)], and the offset
    stored for each partition is its start offset plus its size: the
    partitions are adjacent index ranges from 0 to [len(dataset)]. *)
Theorem partition_coverage
        (d : Dataset Row) (partitions : dict number) (v : PartitionedDataset Row) :
  NoDup (dict_keys partitions) ->
  PartitionedDataset_init (PyDataset d) (PyDict partitions) = Ok v ->
  Forall (fun x => is_int x = true) (dict_values partitions) \/
  (exists total, py_sum (dict_values partitions) = Ok total /\
                 py_le total (PyInt 1) = true) ->
  _partition_names v = dict_keys partitions /\
  fold_right Z.add 0 (_partition_sizes v) = ds_len d /\
  start_offset (_partition_sizes v) (List.length (_partition_sizes v)) = ds_len d /\
  forall k size,
    nth_error (_partition_sizes v) k = Some size ->
    nth_error (_partition_offsets v) k
    = Some (start_offset (_partition_sizes v) k + size).
Proof.
  intros Hnd Hinit Hspec.
  destruct (PartitionedDataset_init_Ok_dict _ _ _ Hinit)
    as (sizes & total & Hconv & Htotal & Heq & Hsizes & Hnames & Hoffsets).
  pose proof (convert_fractional_keys _ _ _ Hconv) as Hkeys.
  destruct (ints_as_int_dict sizes (convert_fractional_ints _ _ _ Hconv Hspec))
    as (spec & ->).
  rewrite int_dict_keys in Hkeys, Hsizes, Hnames.
  rewrite <- Hkeys in Hnd.
  rewrite (lookup_keys_ints spec Hnd) in Hsizes. injection Hsizes as Hsizes.
  rewrite int_dict_values, py_sum_ints in Htotal. injection Htotal as <-.
  unfold py_eq in Heq. simpl in Heq.
  destruct (Z.compare_spec (fold_right Z.add 0 (dict_values spec)) (ds_len d)) as [Hsum| |];
    try discriminate.
  split; [congruence|].
  split; [rewrite <- Hsizes; exact Hsum|].
  split; [unfold start_offset; rewrite firstn_all, <- Hsizes; exact Hsum|].
  intros k size Hk. rewrite Hoffsets. apply cumsum_from_offsets. exact Hk.
Qed.

End PartitionCoverage.

(** ** Dynamic checks of the arguments *)

Section ArgumentChecks.

Context {Row : Type}.

(** Only a [Dataset] can be wrapped: on any other object the three
    constructors raise [AssertionError], whatever the second argument is,
    and so does an assignment to [dataset] on a wrapper, locked or not,
    which leaves the wrapper as it was. *)
Theorem non_dataset_rejected (obj other : object Row) :
  (forall d, obj <> PyDataset d) ->
  DatasetWrapper_init obj other = Raise AssertionError /\
  PartitionedDataset_init obj other = Raise AssertionError /\
  ResampledDataset_init obj other = Raise AssertionError /\
  (forall (A : Dataset Row) (flag : object Row) (w : DatasetWrapper Row),
     DatasetWrapper_init (PyDataset A) flag = Ok w ->
     call (DatasetWrapper_set_dataset obj) w = (w, Some AssertionError)).
Proof.
  intros Hobj.
  assert (Hinit : forall flag, DatasetWrapper_init obj flag = Raise AssertionError).
  { intros flag. destruct obj as [| | | | | |d]; try reflexivity.
    exfalso. apply (Hobj d). reflexivity. }
  split; [apply Hinit|].
  split; [unfold PartitionedDataset_init; rewrite Hinit; reflexivity|].
  split; [unfold ResampledDataset_init; rewrite Hinit; reflexivity|].
  intros A flag w Hw. apply call_Raise.
  rewrite DatasetWrapper_init_dataset in Hw. injection Hw as <-.
  unfold DatasetWrapper_set_dataset. simpl.
  destruct (match flag with PyBool b => b | _ => true end); simpl; [reflexivity|].
  destruct obj as [| | | | | |d]; try reflexivity.
  exfalso. apply (Hobj d). reflexivity.
Qed.

(** The second arguments are checked too: partitions that are neither
    [None] nor a dictionary, and samples that are neither [None] nor an
    array, make the constructor raise [AssertionError]; assigning anything
    but an array to [samples], [None] included, raises [AssertionError]
    and leaves the view as it was. *)
Theorem arguments_type_checked (d : Dataset Row) (obj : object Row) :
  ((forall partitions, obj <> PyDict partitions) -> obj <> PyNone ->
   PartitionedDataset_init (PyDataset d) obj = Raise AssertionError) /\
  ((forall a, obj <> PyNdarray a) -> obj <> PyNone ->
   ResampledDataset_init (PyDataset d) obj = Raise AssertionError) /\
  ((forall a, obj <> PyNdarray a) ->
   forall v : ResampledDataset Row,
     call (ResampledDataset_set_samples obj) v = (v, Some AssertionError)).
Proof.
  split; [|split].
  - intros Hdict Hnone. destruct obj; try reflexivity.
    + exfalso. apply Hnone. reflexivity.
    + exfalso. apply (Hdict d0). reflexivity.
  - intros Harr Hnone. destruct obj; try reflexivity.
    + exfalso. apply Hnone. reflexivity.
    + exfalso. apply (Harr a). reflexivity.
  - intros Harr v. apply call_Raise. destruct obj; try reflexivity.
    exfalso. apply (Harr a). reflexivity.
Qed.

End ArgumentChecks.

(** ** Acceptance, safety and composition of resamples *)

Section ResampleExtras.

Context {Row : Type}.

Lemma view_len_total :
  (forall v : ResampledDataset Row, rd_view v ->
     exists s, _samples v = Some s /\
               ResampledDataset_len v = Ok (Z.of_nat (List.length s))) /\
  (forall v : PartitionedDataset Row, pd_view v ->
     exists size, PartitionedDataset_len v = Ok size).
Proof.
  split.
  - intros v Hv. destruct (rd_view_inv _ Hv) as (d & [_ _ (s & Hs & _ & _)]).
    exists s. split; [exact Hs|]. unfold ResampledDataset_len. rewrite Hs. reflexivity.
  - intros v Hv. destruct (pd_view_inv _ Hv) as (d & [_ _ Hal _ _ (k & Hk & Hlt)]).
    destruct (py_getitem_in_range (_partition_sizes v) (Z.of_nat k)) as (size & _ & Hsize);
      [lia|].
    exists size. unfold PartitionedDataset_len. rewrite Hk. exact Hsize.
Qed.












(** A resample of a partition: built on a [PartitionedDataset] taken as
    the dataset while a partition after the first is active, the samples
    are validated against the size of that partition, and for every index
    [0 <= i < len(outer)], [outer[i]] is the row of the underlying dataset
    at the start offset of the partition plus [samples[i]]. *)
Theorem resample_of_partition
        (inner : PartitionedDataset Row) (k : nat) (outer : ResampledDataset Row)
        (a : ndarray) :
  pd_view inner ->
  _active_partition_idx inner = Some (Z.of_nat (S k)) ->
  ResampledDataset_init (PyDataset (PartitionedDataset_as_Dataset inner)) (PyNdarray a)
  = Ok outer ->
  exists d size,
    wrapped (pd_super inner) = Ok d /\
    nth_error (_partition_sizes inner) (S k) = Some size /\
    forall i, 0 <= i < Z.of_nat (List.length (flatten a)) ->
      exists j,
        nth_error (flatten a) (Z.to_nat i) = Some j /\
        0 <= j < size /\
        ResampledDataset_getitem outer i =
        ds_getitem d (start_offset (_partition_sizes inner) (S k) + j).
Proof.
  intros Hv Hact H.
  destruct (partition_getitem_offset inner Hv) as (d & k' & size & Hd & Hk' & Hnth & Hget).
  assert (Hkk : Z.of_nat (S k) = Z.of_nat k') by congruence.
  apply Nat2Z.inj in Hkk. subst k'.
  exists d, size. split; [exact Hd|]. split; [exact Hnth|].
  rewrite ResampledDataset_init_unfold in H.
  apply set_samples_Ok_inv with (d := PartitionedDataset_as_Dataset inner) in H;
    [|reflexivity].
  destruct H as (a' & [= <-] & -> & _ & Hrange).
  assert (Hlen : ds_len (PartitionedDataset_as_Dataset inner) = size).
  { simpl. unfold PartitionedDataset_len. rewrite Hact. simpl.
    rewrite (py_getitem_nonneg _ (Z.of_nat (S k)) size); [reflexivity | lia|].
    rewrite Nat2Z.id. exact Hnth. }
  rewrite Hlen in Hrange.
  intros i Hi.
  destruct (py_getitem_in_range (flatten a) i Hi) as (j & Hj & Hgetj).
  rewrite Forall_forall in Hrange.
  pose proof (Hrange j (nth_error_In _ _ Hj)) as Hjr.
  exists j. split; [exact Hj|]. split; [exact Hjr|].
  rewrite (rd_getitem_unfold (PartitionedDataset_as_Dataset inner) (flatten a))
    by reflexivity.
  rewrite Hgetj. simpl. apply Hget. lia.
Qed.

End ResampleExtras.

(** ** The further properties on concrete views *)

Lemma two_halves_view_is_view : pd_view two_halves_view.
Proof. exact (pd_view_init _ _ _ two_halves_view_init). Qed.

Lemma two_halves_val_view_is_view : pd_view two_halves_val_view.
Proof.
  exact (pd_view_call (PdSetActivePartition "val"%string) _ two_halves_view_is_view).
Qed.


Lemma two_halves_keys_distinct : NoDup (dict_keys two_halves).
Proof.
  repeat constructor; simpl; intuition discriminate.
Qed.

Lemma train70_val30_keys_distinct : NoDup (dict_keys train70_val30).
Proof.
  repeat constructor; simpl; intuition discriminate.
Qed.

Lemma thirds_keys_distinct : NoDup (dict_keys thirds).
Proof.
  repeat constructor; simpl; intuition discriminate.
Qed.

Lemma partition_structure_fixed_witness :
  _partition_names (pd_run [PdVal; PdSetActivePartition "rest"%string; PdSetDataset PyNone]
                      two_halves_view)
  = _partition_names two_halves_view /\
  _partition_sizes (pd_run [PdVal; PdSetActivePartition "rest"%string; PdSetDataset PyNone]
                      two_halves_view)
  = _partition_sizes two_halves_view /\
  _partition_offsets (pd_run [PdVal; PdSetActivePartition "rest"%string; PdSetDataset PyNone]
                        two_halves_view)
  = cumsum (_partition_sizes two_halves_view) /\
  List.length (_partition_sizes two_halves_view)
  = List.length (_partition_names two_halves_view) /\
  PartitionedDataset_partitions
    (pd_run [PdVal; PdSetActivePartition "rest"%string; PdSetDataset PyNone] two_halves_view)
  = Ok (combine (_partition_names two_halves_view) (_partition_sizes two_halves_view)).
Proof.
  apply (partition_structure_fixed (PyDataset rows4) (PyDict two_halves)). reflexivity.
Defined.

Lemma set_active_partition_roundtrip_witness :
  (exists v' k size,
     call (set_active_partition "val"%string) two_halves_view = (v', None) /\
     nth_error (_partition_names two_halves_view) k = Some "val"%string /\
     (forall j, (j < k)%nat ->
        nth_error (_partition_names two_halves_view) j <> Some "val"%string) /\
     nth_error (_partition_sizes two_halves_view) k = Some size /\
     active_partition v' = Ok "val"%string /\
     PartitionedDataset_len v' = Ok size /\
     v' = {| pd_super := pd_super two_halves_view;
             _partition_names := _partition_names two_halves_view;
             _partition_sizes := _partition_sizes two_halves_view;
             _partition_offsets := _partition_offsets two_halves_view;
             _active_partition_idx := Some (Z.of_nat k) |}) /\
  call (set_active_partition "test"%string) two_halves_view
  = (two_halves_view, Some AssertionError).
Proof.
  split.
  - apply (proj1 (set_active_partition_roundtrip two_halves_view "val"%string
                    two_halves_view_is_view)).
    simpl. tauto.
  - apply (proj2 (set_active_partition_roundtrip two_halves_view "test"%string
                    two_halves_view_is_view)).
    simpl. intros [H|[H|H]]; [discriminate H | discriminate H | exact H].
Defined.

Lemma later_partition_translation_witness :
  exists d size,
    wrapped (pd_super two_halves_val_view) = Ok d /\
    nth_error (_partition_sizes two_halves_val_view) 1 = Some size /\
    forall idx, idx < size ->
      PartitionedDataset_getitem two_halves_val_view idx =
      ds_getitem d (start_offset (_partition_sizes two_halves_val_view) 1 + idx).
Proof.
  apply (later_partition_translation two_halves_val_view 0).
  - exact two_halves_val_view_is_view.
  - reflexivity.
Defined.

Lemma first_partition_offset_witness :
  exists d size,
    wrapped (pd_super two_halves_view) = Ok d /\
    nth_error (_partition_sizes two_halves_view) 0 = Some size /\
    forall idx, idx < size ->
      PartitionedDataset_getitem two_halves_view idx =
      ds_getitem d (fold_right Z.add 0 (_partition_sizes two_halves_view) + idx).
Proof.
  apply (first_partition_offset two_halves_view).
  - exact two_halves_view_is_view.
  - reflexivity.
Defined.

Lemma integer_partitions_accepted_witness :
  (exists v, PartitionedDataset_init (PyDataset rows4) (PyDict (int_dict thirds)) = Ok v) /\
  PartitionedDataset_init (PyDataset rows3) (PyDict (int_dict thirds))
  = Raise AssertionError /\
  (_partition_names thirds_view = dict_keys thirds /\
   _partition_sizes thirds_view = dict_values thirds /\
   forall ops : list pd_op,
     PartitionedDataset_partitions (pd_run ops thirds_view) = Ok thirds /\
     PartitionedDataset_c_args (pd_run ops thirds_view)
     = Ok [("dataset"%string, PyDataset rows4);
           ("partitions"%string, PyDict (int_dict thirds))]).
Proof.
  split; [|split].
  - apply (proj1 (integer_partitions_accepted rows4 thirds thirds_keys_distinct)).
    split; [simpl; lia|]. split; [|reflexivity].
    repeat constructor.
  - apply (proj1 (proj2 (integer_partitions_accepted rows3 thirds thirds_keys_distinct))).
    intros (_ & _ & Hsum). simpl in Hsum. discriminate Hsum.
  - apply (proj2 (proj2 (integer_partitions_accepted rows4 thirds thirds_keys_distinct))).
    reflexivity.
Defined.

Lemma partition_coverage_witness :
  (_partition_names two_halves_view = dict_keys two_halves /\
   fold_right Z.add 0 (_partition_sizes two_halves_view) = ds_len rows4 /\
   start_offset (_partition_sizes two_halves_view)
     (List.length (_partition_sizes two_halves_view)) = ds_len rows4 /\
   forall k size,
     nth_error (_partition_sizes two_halves_view) k = Some size ->
     nth_error (_partition_offsets two_halves_view) k
     = Some (start_offset (_partition_sizes two_halves_view) k + size)) /\
  (_partition_names train70_view = dict_keys train70_val30 /\
   fold_right Z.add 0 (_partition_sizes train70_view) = ds_len (range_dataset 100) /\
   start_offset (_partition_sizes train70_view)
     (List.length (_partition_sizes train70_view)) = ds_len (range_dataset 100) /\
   forall k size,
     nth_error (_partition_sizes train70_view) k = Some size ->
     nth_error (_partition_offsets train70_view) k
     = Some (start_offset (_partition_sizes train70_view) k + size)).
Proof.
  split.
  - apply (partition_coverage rows4 two_halves two_halves_view two_halves_keys_distinct).
    + reflexivity.
    + left. repeat constructor.
  - apply (partition_coverage (range_dataset 100) train70_val30 train70_view
             train70_val30_keys_distinct).
    + vm_compute. reflexivity.
    + right. eexists. split; [vm_compute; reflexivity | reflexivity].
Defined.

Lemma non_dataset_rejected_witness :
  DatasetWrapper_init (@PyStr Z "rows") PyNone = Raise AssertionError /\
  PartitionedDataset_init (@PyStr Z "rows") PyNone = Raise AssertionError /\
  ResampledDataset_init (@PyStr Z "rows") PyNone = Raise AssertionError /\
  (forall (A : Dataset Z) (flag : object Z) (w : DatasetWrapper Z),
     DatasetWrapper_init (PyDataset A) flag = Ok w ->
     call (DatasetWrapper_set_dataset (PyStr "rows")) w = (w, Some AssertionError)).
Proof.
  apply (non_dataset_rejected (@PyStr Z "rows") PyNone).
  intros d H. discriminate H.
Defined.

Lemma arguments_type_checked_witness :
  PartitionedDataset_init (PyDataset rows3) (PyStr "half") = Raise AssertionError /\
  ResampledDataset_init (PyDataset rows3) (PyStr "half") = Raise AssertionError /\
  call (ResampledDataset_set_samples PyNone) duplicated_view
  = (duplicated_view, Some AssertionError).
Proof.
  split; [|split].
  - apply (proj1 (arguments_type_checked rows3 (PyStr "half")));
      intros; discriminate.
  - apply (proj1 (proj2 (arguments_type_checked rows3 (PyStr "half"))));
      intros; discriminate.
  - apply (proj2 (proj2 (arguments_type_checked rows3 PyNone))).
    intros; discriminate.
Defined.





Lemma resample_of_partition_witness :
  exists d size,
    wrapped (pd_super two_halves_val_view) = Ok d /\
    nth_error (_partition_sizes two_halves_val_view) 1 = Some size /\
    forall i, 0 <= i < Z.of_nat (List.length (flatten (array [1; 0; 1]))) ->
      exists j,
        nth_error (flatten (array [1; 0; 1])) (Z.to_nat i) = Some j /\
        0 <= j < size /\
        ResampledDataset_getitem resample_of_val i =
        ds_getitem d (start_offset (_partition_sizes two_halves_val_view) 1 + j).
Proof.
  apply (resample_of_partition two_halves_val_view 0 resample_of_val (array [1; 0; 1])).
  - exact two_halves_val_view_is_view.
  - reflexivity.
  - reflexivity.
Defined.
